(** * safe-proxy-site: target validation and request forwarding

    A shallow embedding of the two server programs of the repository,

      - [Part000]  : src/unnamed/part_000  (validator [parseAndValidateTarget])
      - [ServerJs] : src/server.js         (validator [allowedTarget])

    together with the JavaScript string and regular-expression operations
    they use.  Strings are byte strings; [toLowerCase] is the ASCII case
    mapping, which is what JavaScript computes on ASCII input. *)

From Stdlib Require Import Ascii String List Bool Arith Lia.
From stdpp Require Import base option strings gmap.

Import ListNotations.
Local Open Scope string_scope.
Local Open Scope list_scope.

(* ===================================================================== *)
(** ** JavaScript string operations *)
(* ===================================================================== *)

Module JS.

Definition isDigit (c : ascii) : bool :=
  Nat.leb 48 (nat_of_ascii c) && Nat.leb (nat_of_ascii c) 57.

Definition isUpper (c : ascii) : bool :=
  Nat.leb 65 (nat_of_ascii c) && Nat.leb (nat_of_ascii c) 90.

Definition lowerChar (c : ascii) : ascii :=
  if isUpper c then ascii_of_nat (nat_of_ascii c + 32) else c.

(** [s.toLowerCase()] *)
Fixpoint toLowerCase (s : string) : string :=
  match s with
  | EmptyString => EmptyString
  | String c s' => String (lowerChar c) (toLowerCase s')
  end.

(** [s.startsWith(p)] *)
Fixpoint startsWith (s p : string) {struct p} : bool :=
  match p, s with
  | EmptyString, _ => true
  | String _ _, EmptyString => false
  | String a p', String b s' => Ascii.eqb a b && startsWith s' p'
  end.

(** [s.endsWith(t)]: [t] is [s] itself or a suffix of the tail of [s]. *)
Fixpoint endsWith (s t : string) : bool :=
  String.eqb s t ||
  match s with
  | EmptyString => false
  | String _ s' => endsWith s' t
  end.

(** [s.includes(t)] *)
Fixpoint includes (s t : string) : bool :=
  startsWith s t ||
  match s with
  | EmptyString => false
  | String _ s' => includes s' t
  end.

(** The tail of [s] after its first [n] characters. *)
Fixpoint dropChars (n : nat) (s : string) : string :=
  match n, s with
  | O, _ => s
  | S _, EmptyString => EmptyString
  | S n', String _ s' => dropChars n' s'
  end.

(** [s.replace(pat, rep)] with a string pattern: the first occurrence
    only.  (The replacement strings used by the servers contain no [$].) *)
Fixpoint replace (s pat rep : string) : string :=
  if startsWith s pat then rep +:+ dropChars (String.length pat) s
  else match s with
       | EmptyString => EmptyString
       | String c s' => String c (replace s' pat rep)
       end.

(** [s.split(sep)[0]] for a one-character separator. *)
Fixpoint splitHead (sep : ascii) (s : string) : string :=
  match s with
  | EmptyString => EmptyString
  | String c s' => if Ascii.eqb c sep then EmptyString
                   else String c (splitHead sep s')
  end.

(** Truthiness of a string: [!s] holds exactly for the empty string. *)
Definition truthy (s : string) : bool := negb (String.eqb s "").

(** [arr.includes(x)] on an array of strings. *)
Definition arrayIncludes (arr : list string) (x : string) : bool :=
  existsb (String.eqb x) arr.

End JS.

(* ===================================================================== *)
(** ** Regular expressions, matched by derivatives *)
(* ===================================================================== *)

Module RegExp.

Inductive regex : Type :=
| Never
| Eps
| Class (p : ascii -> bool)
| Cat (r s : regex)
| Alt (r s : regex)
| Star (r : regex).

Fixpoint nullable (r : regex) : bool :=
  match r with
  | Never => false
  | Eps => true
  | Class _ => false
  | Cat r s => nullable r && nullable s
  | Alt r s => nullable r || nullable s
  | Star _ => true
  end.

Fixpoint deriv (c : ascii) (r : regex) : regex :=
  match r with
  | Never => Never
  | Eps => Never
  | Class p => if p c then Eps else Never
  | Cat r s =>
      if nullable r then Alt (Cat (deriv c r) s) (deriv c s)
      else Cat (deriv c r) s
  | Alt r s => Alt (deriv c r) (deriv c s)
  | Star r => Cat (deriv c r) (Star r)
  end.

(** The whole of [s] is in the language of [r]: a pattern [/^r$/]. *)
Fixpoint matches (r : regex) (s : string) : bool :=
  match s with
  | EmptyString => nullable r
  | String c s' => matches (deriv c r) s'
  end.

(** The language of a pattern. *)
Inductive lang : regex -> string -> Prop :=
| lang_eps : lang Eps ""
| lang_class (p : ascii -> bool) (c : ascii) :
    p c = true -> lang (Class p) (String c "")
| lang_cat (r s : regex) (u v : string) :
    lang r u -> lang s v -> lang (Cat r s) (u +:+ v)
| lang_alt_l (r s : regex) (u : string) : lang r u -> lang (Alt r s) u
| lang_alt_r (r s : regex) (u : string) : lang s u -> lang (Alt r s) u
| lang_star_nil (r : regex) : lang (Star r) ""
| lang_star_cons (r : regex) (u v : string) :
    lang r u -> lang (Star r) v -> lang (Star r) (u +:+ v).

(** Pattern syntax. *)
Definition chr (c : ascii) : regex := Class (Ascii.eqb c).
Definition range (lo hi : ascii) : regex :=
  Class (fun c => Nat.leb (nat_of_ascii lo) (nat_of_ascii c)
                  && Nat.leb (nat_of_ascii c) (nat_of_ascii hi)).
Definition digit : regex := Class JS.isDigit.                (* \d     *)
Definition opt (r : regex) : regex := Alt Eps r.             (* r?     *)
Definition rep1to3 (r : regex) : regex :=                    (* r{1,3} *)
  Cat r (Cat (opt r) (opt r)).
Definition times3 (r : regex) : regex := Cat r (Cat r r).    (* r{3}   *)
Definition plus (r : regex) : regex := Cat r (Star r).       (* r+     *)
Definition anything : regex := Star (Class (fun _ => true)).

Fixpoint lit (s : string) : regex :=
  match s with
  | EmptyString => Eps
  | String c s' => Cat (chr c) (lit s')
  end.

(** [/^r/.test(s)]: anchored at the start only. *)
Definition testPrefix (r : regex) (s : string) : bool :=
  matches (Cat r anything) s.

(** Every character class of [r] gives the same answer on a character and
    on its lower-case form. *)
Fixpoint caseBlind (r : regex) : Prop :=
  match r with
  | Never | Eps => True
  | Class p => forall c, p (JS.lowerChar c) = p c
  | Cat r s | Alt r s => caseBlind r /\ caseBlind s
  | Star r => caseBlind r
  end.

End RegExp.

(* ===================================================================== *)
(** ** Requests, responses and header stores *)
(* ===================================================================== *)

Module Http.

(** [req.query.url] when the query-string parser of the web framework
    delivers it absent, as one string, or as an array of strings (the
    parameter repeated).  The parser can also deliver a nested object
    ([?url[a]=b]), on which [String(...)] may throw; that shape is not part
    of this type, and every statement about a request is a statement about
    the three shapes listed here. *)
Inductive QueryValue : Type :=
| QUndefined
| QString (s : string)
| QArray (items : list string).

(** Truthiness of a query value: arrays are always truthy. *)
Definition truthy (v : QueryValue) : bool :=
  match v with
  | QUndefined => false
  | QString s => JS.truthy s
  | QArray _ => true
  end.

(** [items.join(sep)] *)
Fixpoint join (sep : string) (items : list string) : string :=
  match items with
  | [] => ""
  | [s] => s
  | s :: rest => s +:+ sep +:+ join sep rest
  end.

(** [String(v)] *)
Definition toStr (v : QueryValue) : string :=
  match v with
  | QUndefined => "undefined"
  | QString s => s
  | QArray items => join "," items
  end.

(** [v || ""] *)
Definition orEmpty (v : QueryValue) : QueryValue :=
  if truthy v then v else QString "".

(** Headers of an incoming message: lower-cased name to value. *)
Abbreviation Headers := (gmap string string).

(** Headers of an outgoing client request: lower-cased name to the name as
    it was set and the value. *)
Abbreviation OutHeaders := (gmap string (string * string)).

(** [proxyReq.setHeader(name, value)] and [proxyReq.removeHeader(name)]:
    header names are compared without regard to case. *)
Definition setHeader (name value : string) (h : OutHeaders) : OutHeaders :=
  <[JS.toLowerCase name := (name, value)]> h.

Definition removeHeader (name : string) (h : OutHeaders) : OutHeaders :=
  delete (JS.toLowerCase name) h.

Record Request : Type := mkRequest {
  method : string;
  query_url : QueryValue;   (* req.query.url *)
  path : string;            (* the path handed to pathRewrite *)
  headers : Headers
}.

Inductive Body : Type :=
| Json (fields : list (string * string))   (* res.json({...}) *)
| Text (s : string).                       (* res.send("...") *)

(** What the code of the [/proxy] handler and of the two option functions
    [router] and [pathRewrite] computes for one request: the response the
    handler writes itself, or the pair of values that [router] and
    [pathRewrite] return to the proxy library, or the exception one of them
    throws.  [Forward target path] records those two return values and
    nothing more: how the library combines them into the request it finally
    sends (it parses the target again and may put the path of the target in
    front of the rewritten path) is code outside this repository and is not
    described here. *)
Inductive Outcome : Type :=
| Respond (status : nat) (body : Body)
| Forward (target : string) (path : string)
| RouterThrew (message : string)
| RewriteThrew.

Definition forwarded (o : Outcome) : bool :=
  match o with Forward _ _ => true | _ => false end.

Definition routerThrew (o : Outcome) : bool :=
  match o with RouterThrew _ => true | _ => false end.

(** What one call of an [onError] option does to the response object:
    it writes a status and a JSON body, or leaves the response alone, or
    throws because [res.status(...).json(...)] was called on a response
    whose headers are already sent (the framework sets the content type
    first, and setting a header then raises [ERR_HTTP_HEADERS_SENT]). *)
Inductive Answer : Type :=
| Wrote (status : nat) (body : Body)
| Untouched
| ThrewHeadersSent.

Definition written (a : Answer) : option (nat * Body) :=
  match a with Wrote status body => Some (status, body) | _ => None end.

Definition wrote400 (a : Answer) : bool :=
  match a with Wrote status _ => Nat.eqb status 400 | _ => false end.

(** The hooks a proxy configuration registers.  The proxy library calls
    [onProxyReq] on the upstream-bound request and [onProxyRes] on the
    upstream response before its headers are copied to the client; a
    configuration without a hook leaves that direction as it is. *)
Record Hooks : Type := mkHooks {
  onProxyReq : option (OutHeaders -> OutHeaders);
  onProxyRes : option (option Headers -> option Headers)
}.

Definition upstreamBoundHeaders (hk : Hooks) (h : OutHeaders) : OutHeaders :=
  match onProxyReq hk with Some f => f h | None => h end.

Definition relayedHeaders (hk : Hooks) (h : option Headers) : option Headers :=
  match onProxyRes hk with Some f => f h | None => h end.

End Http.

Import Http.

(* ===================================================================== *)
(** ** src/unnamed/part_000 *)
(* ===================================================================== *)

Module Part000.

(** The fields of a WHATWG [URL] object that the program reads. *)
Record URL : Type := mkURL {
  protocol : string;
  hostname : string;
  origin : string;
  pathname : string;
  search : string
}.

(** The five reason strings of [parseAndValidateTarget], under the names
    the specification gives them. *)
Inductive Reason : Type :=
| MissingTarget
| InvalidURL
| UnsupportedScheme
| PrivateOrLiteralHost
| DomainNotAllowlisted.

Definition reasonText (r : Reason) : string :=
  match r with
  | MissingTarget => "Missing 'url' query parameter"
  | InvalidURL => "Invalid URL"
  | UnsupportedScheme => "Only HTTP, HTTPS, WS, and WSS are allowed"
  | PrivateOrLiteralHost => "Private hosts and IP literals are blocked"
  | DomainNotAllowlisted => "Domain is not in PROXY_ALLOWLIST"
  end.

(** [{ ok: false, reason }] or [{ ok: true, target }] *)
Inductive Validation : Type :=
| Rejected (reason : string)
| Accepted (target : URL).

Definition ok (v : Validation) : bool :=
  match v with Accepted _ => true | Rejected _ => false end.

(** [/^(\d{1,3}\.){3}\d{1,3}$/] *)
Definition ipv4 : RegExp.regex :=
  RegExp.Cat
    (RegExp.times3 (RegExp.Cat (RegExp.rep1to3 RegExp.digit) (RegExp.chr ".")))
    (RegExp.rep1to3 RegExp.digit).

Definition isPrivateOrIpLiteral (hostname : string) : bool :=
  if negb (JS.truthy hostname) then true
  else if RegExp.matches ipv4 hostname then true
  else if JS.includes hostname ":" then true
  else
    let lower := JS.toLowerCase hostname in
    if String.eqb lower "localhost" || JS.endsWith lower ".localhost" then true
    else false.

Definition allowedProtocols : list string := ["http:"; "https:"; "ws:"; "wss:"].

(** [onProxyReq(proxyReq)] *)
Definition onProxyReq (proxyReq : OutHeaders) : OutHeaders :=
  fold_left (fun h header => removeHeader header h)
    ["connection"; "keep-alive"; "proxy-authenticate"; "proxy-authorization";
     "te"; "trailers"; "transfer-encoding"; "upgrade"]
    (setHeader "X-Forwarded-By" "safe-proxy-site" proxyReq).

(** The options of [createProxyMiddleware] register no [onProxyRes]. *)
Definition hooks : Hooks :=
  {| Http.onProxyReq := Some onProxyReq; Http.onProxyRes := None |}.

Definition rejectPrefix : string := "REJECTED_TARGET:".

(** [onError(error, _req, res)] on an HTTP response [res], as a function
    of the two things it reads: [error.message] and [res.headersSent].  The
    first branch writes without looking at [res.headersSent]; the second is
    guarded by it.  Which errors the proxy library passes to this function
    is decided by the library. *)
Definition onError (message : string) (headersSent : bool) : Answer :=
  if JS.startsWith message rejectPrefix then
    if headersSent then ThrewHeadersSent
    else Wrote 400 (Json [("error", JS.replace message rejectPrefix "")])
  else if negb headersSent then
    Wrote 502 (Json [("error", "Proxy request failed"); ("detail", message)])
  else Untouched.

Section Program.

(** [new URL(s)] of the platform; [None] when it throws. *)
Variable parseURL : string -> option URL.

(** The allowlist read from the environment at startup. *)
Variable ALLOWLIST : list string.

Definition allowlisted (hostname : string) : bool :=
  existsb (fun domain => String.eqb hostname domain
                         || JS.endsWith hostname ("." +:+ domain))
          ALLOWLIST.

Definition parseAndValidateTarget (target : string) : Validation :=
  if negb (JS.truthy target) then Rejected (reasonText MissingTarget)
  else match parseURL target with
  | None => Rejected (reasonText InvalidURL)
  | Some parsed =>
      let protocol := JS.toLowerCase (protocol parsed) in
      if negb (JS.arrayIncludes allowedProtocols protocol) then
        Rejected (reasonText UnsupportedScheme)
      else
        let hostname := JS.toLowerCase (hostname parsed) in
        if isPrivateOrIpLiteral hostname then
          Rejected (reasonText PrivateOrLiteralHost)
        else if negb (allowlisted hostname) then
          Rejected (reasonText DomainNotAllowlisted)
        else Accepted parsed
  end.

(** [router(req)]: the upstream origin, or the message of the error
    thrown. *)
Definition router (req : Request) : string + string :=
  match parseAndValidateTarget (toStr (orEmpty (query_url req))) with
  | Rejected reason => inr (rejectPrefix +:+ reason)
  | Accepted target => inl (origin target)
  end.

Definition pathRewrite (req : Request) : string :=
  match parseAndValidateTarget (toStr (orEmpty (query_url req))) with
  | Rejected _ => "/"
  | Accepted target => pathname target +:+ search target
  end.

(** The middleware built by [createProxyMiddleware]: route, then rewrite
    the path, then forward. *)
Definition proxy (req : Request) : Outcome :=
  match router req with
  | inr message => RouterThrew message
  | inl target => Forward target (pathRewrite req)
  end.

(** [app.use("/proxy", (req, res, next) => ...)], for a request that the
    middlewares mounted before it (rate limiter, static files) have let
    through. *)
Definition proxyHandler (req : Request) : Outcome :=
  match parseAndValidateTarget (toStr (orEmpty (query_url req))) with
  | Rejected reason => Respond 400 (Json [("error", reason)])
  | Accepted _ => proxy req
  end.

End Program.

End Part000.

(* ===================================================================== *)
(** ** src/server.js *)
(* ===================================================================== *)

Module ServerJs.

(** The fields of a [url-parse] object that the program reads, with its
    [protocol]; [href] is what [toString()] returns. *)
Record URL : Type := mkURL {
  protocol : string;
  host : string;          (* host name and, when present, ":" and the port *)
  pathname : string;
  query : string;
  href : string
}.

(** [{ ok: false, reason }] or [{ ok: true, url }] *)
Inductive Check : Type :=
| Failed (reason : string)
| Ok (url : string).

Definition ok (c : Check) : bool :=
  match c with Ok _ => true | Failed _ => false end.

(** [/^\d{1,3}(\.\d{1,3}){3}$/] *)
Definition ipv4 : RegExp.regex :=
  RegExp.Cat (RegExp.rep1to3 RegExp.digit)
    (RegExp.times3 (RegExp.Cat (RegExp.chr ".") (RegExp.rep1to3 RegExp.digit))).

(** [/^[a-f0-9:]+$/i] *)
Definition hexOrColon : RegExp.regex :=
  RegExp.plus (RegExp.Class (fun c =>
    let l := JS.lowerChar c in
    (Nat.leb 97 (nat_of_ascii l) && Nat.leb (nat_of_ascii l) 102)
    || JS.isDigit l || Ascii.eqb l ":")).

(** The patterns anchored at the start only, and [/^::1$/]. *)
Definition PRIVATE_NET_RANGES : list (string -> bool) :=
  [ RegExp.testPrefix (RegExp.lit "10.");
    RegExp.testPrefix (RegExp.lit "127.");
    RegExp.testPrefix (RegExp.lit "169.254.");
    RegExp.testPrefix
      (RegExp.Cat (RegExp.lit "172.")
         (RegExp.Cat
            (RegExp.Alt (RegExp.Cat (RegExp.chr "1") (RegExp.range "6" "9"))
               (RegExp.Alt (RegExp.Cat (RegExp.chr "2") (RegExp.range "0" "9"))
                           (RegExp.Cat (RegExp.chr "3") (RegExp.range "0" "1"))))
            (RegExp.chr ".")));
    RegExp.testPrefix (RegExp.lit "192.168.");
    RegExp.matches (RegExp.lit "::1");
    RegExp.testPrefix (RegExp.lit "fc00:");
    RegExp.testPrefix (RegExp.lit "fe80:") ].

Definition isPrivateHost (host : string) : bool :=
  if negb (JS.truthy host) then true
  else
    let h := JS.toLowerCase host in
    if RegExp.matches ipv4 h then existsb (fun rx => rx h) PRIVATE_NET_RANGES
    else if RegExp.matches hexOrColon h then true
    else false.

Definition allowedMethods : list string :=
  ["GET"; "POST"; "PUT"; "PATCH"; "DELETE"; "HEAD"; "OPTIONS"].

(** [onProxyReq(proxyReq)] *)
Definition onProxyReq (proxyReq : OutHeaders) : OutHeaders :=
  setHeader "X-Forwarded-By" "safe-proxy-site"
    (fold_left (fun h header => removeHeader header h)
       ["connection"; "keep-alive"; "proxy-authenticate";
        "proxy-authorization"; "te"; "trailers"; "transfer-encoding";
        "upgrade"]
       proxyReq).

(** [onProxyRes(proxyRes)], on [proxyRes.headers]: nothing is deleted when
    there is no header object. *)
Definition onProxyRes (headers : option Headers) : option Headers :=
  match headers with
  | None => None
  | Some h => Some (fold_left (fun h name => delete name h)
                      ["server"; "x-powered-by"] h)
  end.

Definition hooks : Hooks :=
  {| Http.onProxyReq := Some onProxyReq; Http.onProxyRes := Some onProxyRes |}.

Definition rejectPrefix : string := "REJECT:".

(** [onError(err, req, res)] on an HTTP response [res], as a function of
    the two things it reads: [err.message] and [res.headersSent].  The
    first branch writes without looking at [res.headersSent]; the second is
    guarded by it.  Which errors the proxy library passes to this function
    is decided by the library. *)
Definition onError (message : string) (headersSent : bool) : Answer :=
  if JS.startsWith message rejectPrefix then
    if headersSent then ThrewHeadersSent
    else Wrote 400 (Json [("error", "Target rejected");
                          ("reason", JS.replace message rejectPrefix "")])
  else if negb headersSent then
    Wrote 502 (Json [("error", "Bad gateway"); ("detail", message)])
  else Untouched.

Section Program.

(** [new URL(s)] of the url-parse package; [None] when it throws. *)
Variable parseURL : string -> option URL.
Variable ALLOWLIST : list string.
Variable DEFAULT_TARGET : string.

(** [(parsed.host || "")] is [parsed.host]: the field is always a string. *)
Definition allowedTarget (urlStr : string) : Check :=
  match parseURL urlStr with
  | None => Failed "Bad URL"
  | Some parsed =>
      let host := JS.toLowerCase (host parsed) in
      if negb (JS.truthy host) then Failed "No host"
      else if isPrivateHost host then Failed "Private/invalid host"
      else
        let hostname := JS.splitHead ":" host in
        if existsb (fun allowed => String.eqb hostname allowed
                                   || JS.endsWith hostname ("." +:+ allowed))
                   ALLOWLIST
        then Ok (href parsed)
        else Failed "Host not in allowlist"
  end.

(** [router(req)]: the target, or the message of the error thrown. *)
Definition router (req : Request) : string + string :=
  let urlParam := query_url req in
  if negb (truthy urlParam) then inl DEFAULT_TARGET
  else match allowedTarget (toStr urlParam) with
       | Failed reason => inr (rejectPrefix +:+ reason)
       | Ok _ => inl (toStr urlParam)
       end.

(** [pathRewrite(path, req)]; [None] when [new URL] throws. *)
Definition pathRewrite (path : string) (req : Request) : option string :=
  let urlParam := query_url req in
  if negb (truthy urlParam) then Some path
  else match parseURL (toStr urlParam) with
       | None => None
       | Some u =>
           Some (pathname u +:+ (if JS.truthy (query u) then query u else ""))
       end.

(** The middleware built by [createProxyMiddleware]: route, then rewrite
    the path, then forward. *)
Definition proxyMiddleware (req : Request) : Outcome :=
  match router req with
  | inr message => RouterThrew message
  | inl target =>
      match pathRewrite (path req) req with
      | None => RewriteThrew
      | Some p => Forward target p
      end
  end.

(** [app.use("/proxy", (req, res, next) => ...)], for a request that the
    middlewares mounted before it (rate limiter, static files) have let
    through. *)
Definition proxyHandler (req : Request) : Outcome :=
  if negb (JS.arrayIncludes allowedMethods (method req)) then
    Respond 405 (Text "Method Not Allowed")
  else if truthy (query_url req) then
    match allowedTarget (toStr (query_url req)) with
    | Failed reason =>
        Respond 400 (Json [("error", "Target rejected"); ("reason", reason)])
    | Ok _ => proxyMiddleware req
    end
  else proxyMiddleware req.

End Program.

End ServerJs.

(* ===================================================================== *)
(** ** Worked inputs *)
(* ===================================================================== *)

Module Samples.

(** What the WHATWG parser returns on the example targets used below;
    any other input is left unparsed.  It stands for the platform parser
    in worked examples only: every general statement is about an arbitrary
    parser. *)
Definition whatwg (s : string) : option Part000.URL :=
  if String.eqb s "https://example.com/foo?x=1" then
    Some (Part000.mkURL "https:" "example.com" "https://example.com" "/foo" "?x=1")
  else if String.eqb s "http://127.0.0.1:8080/" then
    Some (Part000.mkURL "http:" "127.0.0.1" "http://127.0.0.1:8080" "/" "")
  else if String.eqb s "ftp://127.0.0.1/" then
    Some (Part000.mkURL "ftp:" "127.0.0.1" "ftp://127.0.0.1" "/" "")
  else if String.eqb s "ftp://example.com/" then
    Some (Part000.mkURL "ftp:" "example.com" "ftp://example.com" "/" "")
  else if String.eqb s "https://evil-example.com.com/" then
    Some (Part000.mkURL "https:" "evil-example.com.com"
            "https://evil-example.com.com" "/" "")
  else if String.eqb s "ftp://evil-example.com.com/" then
    Some (Part000.mkURL "ftp:" "evil-example.com.com"
            "ftp://evil-example.com.com" "/" "")
  else if String.eqb s "https://github.com/" then
    Some (Part000.mkURL "https:" "github.com" "https://github.com" "/" "")
  else if String.eqb s "https://api.example.com/v1" then
    Some (Part000.mkURL "https:" "api.example.com" "https://api.example.com"
            "/v1" "")
  else None.

(** The same for the url-parse package. *)
Definition urlparse (s : string) : option ServerJs.URL :=
  if String.eqb s "https://example.com/foo?x=1" then
    Some (ServerJs.mkURL "https:" "example.com" "/foo" "?x=1"
            "https://example.com/foo?x=1")
  else if String.eqb s "http://127.0.0.1:8080/" then
    Some (ServerJs.mkURL "http:" "127.0.0.1:8080" "/" "" "http://127.0.0.1:8080/")
  else if String.eqb s "http://8.8.8.8/" then
    Some (ServerJs.mkURL "http:" "8.8.8.8" "/" "" "http://8.8.8.8/")
  else if String.eqb s "ftp://example.com/" then
    Some (ServerJs.mkURL "ftp:" "example.com" "/" "" "ftp://example.com/")
  else if String.eqb s "https://evil-example.com.com/" then
    Some (ServerJs.mkURL "https:" "evil-example.com.com" "/" ""
            "https://evil-example.com.com/")
  else if String.eqb s "https://api.example.com/v1" then
    Some (ServerJs.mkURL "https:" "api.example.com" "/v1" ""
            "https://api.example.com/v1")
  else None.

(** The headers of a WebSocket handshake, and of an upstream response. *)
Definition upgradeHeaders : Headers :=
  {[ "host" := "proxy.test"; "connection" := "Upgrade";
     "upgrade" := "websocket"; "keep-alive" := "timeout=5" ]}.

Definition upstreamResponse : Headers :=
  {[ "server" := "nginx"; "x-powered-by" := "PHP/8.2";
     "content-type" := "text/html" ]}.

Definition get (url : QueryValue) : Request :=
  mkRequest "GET" url "/proxy" ∅.

Definition trace (url : QueryValue) : Request :=
  mkRequest "TRACE" url "/proxy" ∅.

End Samples.

(* ===================================================================== *)
(** ** Notions used to state the properties *)
(* ===================================================================== *)

Module Notions.

(** The hop-by-hop header names, lower case. *)
Definition hopByHop : list string :=
  ["connection"; "keep-alive"; "proxy-authenticate"; "proxy-authorization";
   "te"; "trailers"; "transfer-encoding"; "upgrade"].

(** A request that asks for a protocol switch: it has an [upgrade] header
    and its [connection] header names [upgrade]. *)
Definition isUpgradeRequest (h : Headers) : bool :=
  match h !! "connection", h !! "upgrade" with
  | Some c, Some _ => JS.includes (JS.toLowerCase c) "upgrade"
  | _, _ => false
  end.

(** The response headers that identify the upstream server or its
    platform. *)
Definition identifying : list string := ["server"; "x-powered-by"].

(** The outgoing header store the proxy library builds from the headers of
    the inbound request, before the hook runs. *)
Definition outgoing (h : Headers) : OutHeaders :=
  map_imap (fun name value => Some (name, value)) h.

(** What the request hook of either program leaves under each header
    name. *)
Definition afterRequestHook (h : OutHeaders) (k : string)
  : option (string * string) :=
  if decide (k ∈ hopByHop) then None
  else if decide (k = "x-forwarded-by")
       then Some ("X-Forwarded-By", "safe-proxy-site")
       else h !! k.

(** A host name matches an allowlist entry: it is the entry, or it ends
    with a dot followed by the entry. *)
Definition matchesEntry (hostname entry : string) : Prop :=
  hostname = entry \/ exists p, hostname = p +:+ "." +:+ entry.

End Notions.

Import Notions.

(* ===================================================================== *)
(** ** Startup configuration (both programs) *)
(* ===================================================================== *)

Module Startup.

(** The value of an environment variable is modelled where it is ASCII
    text: every character code is below 128.  On such text [trim] removes
    the six ASCII white-space characters and [toLowerCase] changes the
    letters [A] to [Z] only, which is what [isSpace], [trim] and
    [JS.toLowerCase] do.  Outside ASCII the platform also trims characters
    such as U+00A0, U+3000 and U+FEFF and lower-cases other letters; the
    definitions below do not describe that, and every statement about the
    loaders assumes [Shapes.asciiOnly] of the value. *)

(** The white space of ASCII: space, tab, line feed, vertical tab, form
    feed, carriage return. *)
Definition isSpace (c : ascii) : bool :=
  Nat.eqb (nat_of_ascii c) 32
  || (Nat.leb 9 (nat_of_ascii c) && Nat.leb (nat_of_ascii c) 13).

Fixpoint trimStart (s : string) : string :=
  match s with
  | EmptyString => EmptyString
  | String c s' => if isSpace c then trimStart s' else s
  end.

Fixpoint trimEnd (s : string) : string :=
  match s with
  | EmptyString => EmptyString
  | String c s' =>
      match trimEnd s' with
      | EmptyString => if isSpace c then EmptyString else String c EmptyString
      | t => String c t
      end
  end.

(** [s.trim()], for ASCII [s]. *)
Definition trim (s : string) : string := trimEnd (trimStart s).

(** [s.split(sep)] for a one-character separator: the pieces between the
    separators, never the empty array. *)
Fixpoint split (sep : ascii) (s : string) : list string :=
  match s with
  | EmptyString => [EmptyString]
  | String c s' =>
      if Ascii.eqb c sep then EmptyString :: split sep s'
      else match split sep s' with
           | [] => [String c EmptyString]
           | w :: ws => String c w :: ws
           end
  end.

(** [(process.env.PROXY_ALLOWLIST || "").split(",")
      .map(s => s.trim().toLowerCase()).filter(Boolean)], for an ASCII
    value of the variable. *)
Definition loadAllowlist (env : option string) : list string :=
  List.filter JS.truthy
    (List.map (fun s => JS.toLowerCase (trim s))
       (split "," (default "" env))).

(** [(process.env.CORS_ORIGINS || "").split(",")
      .map(s => s.trim()).filter(Boolean)], for an ASCII value of the
    variable. *)
Definition loadCorsOrigins (env : option string) : list string :=
  List.filter JS.truthy (List.map trim (split "," (default "" env))).

(** The check on [ALLOWLIST.length] at startup, for an ASCII value of the
    variable: [None] is [process.exit(1)], otherwise the program goes on
    with the allowlist. *)
Definition startup (env : option string) : option (list string) :=
  if Nat.eqb (List.length (loadAllowlist env)) 0 then None
  else Some (loadAllowlist env).

End Startup.

(* ===================================================================== *)
(** ** The CORS origin callback of part_000 *)
(* ===================================================================== *)

Module Part000Cors.

(** [callback(null, true)] or [callback(new Error(message))] *)
Inductive Decision : Type :=
| Allow
| Deny (message : string).

(** [origin(origin, callback)]; the [Origin] header is absent or a
    string. *)
Definition origin (CORS_ORIGINS : list string) (origin : option string)
  : Decision :=
  match origin with
  | None => Allow
  | Some o =>
      if negb (JS.truthy o) || JS.arrayIncludes CORS_ORIGINS o then Allow
      else Deny "Origin not allowed by CORS"
  end.

(** The options handed to [cors]: the callback when origins are configured,
    [None] for [undefined], which leaves the package to its defaults. *)
Definition options (CORS_ORIGINS : list string)
  : option (option string -> Decision) :=
  if Nat.ltb 0 (List.length CORS_ORIGINS) then Some (origin CORS_ORIGINS)
  else None.

End Part000Cors.

(* ===================================================================== *)
(** ** Shapes of strings and hosts used to state further properties *)
(* ===================================================================== *)

Module Shapes.

(** Every character of [s] satisfies [p]. *)
Fixpoint allChars (p : ascii -> bool) (s : string) : bool :=
  match s with
  | EmptyString => true
  | String c s' => p c && allChars p s'
  end.

(** ASCII text: every character code is below 128. *)
Definition asciiOnly (s : string) : bool :=
  allChars (fun c => Nat.ltb (nat_of_ascii c) 128) s.

(** Some character class of the pattern accepts [c]. *)
Fixpoint alphabet (r : RegExp.regex) (c : ascii) : bool :=
  match r with
  | RegExp.Never | RegExp.Eps => false
  | RegExp.Class p => p c
  | RegExp.Cat r s | RegExp.Alt r s => alphabet r c || alphabet s c
  | RegExp.Star r => alphabet r c
  end.

(** One to three decimal digits. *)
Definition octet (w : string) : bool :=
  Nat.leb 1 (String.length w) && Nat.leb (String.length w) 3
  && allChars JS.isDigit w.

(** Four dot-separated groups of one to three digits. *)
Definition dottedQuad (s : string) : Prop :=
  exists a b c d : string,
    s = a +:+ "." +:+ b +:+ "." +:+ c +:+ "." +:+ d
    /\ octet a = true /\ octet b = true /\ octet c = true /\ octet d = true.

(** A digit, a letter a to f in either case, a dot or a colon. *)
Definition literalChar (c : ascii) : bool :=
  JS.isDigit c
  || (Nat.leb 97 (nat_of_ascii (JS.lowerChar c))
      && Nat.leb (nat_of_ascii (JS.lowerChar c)) 102)
  || Ascii.eqb c "." || Ascii.eqb c ":".

(** A digit, a letter a to f in either case, or a colon. *)
Definition hexOrColonChar (c : ascii) : bool :=
  JS.isDigit c
  || (Nat.leb 97 (nat_of_ascii (JS.lowerChar c))
      && Nat.leb (nat_of_ascii (JS.lowerChar c)) 102)
  || Ascii.eqb c ":".

(** The two-digit number written [a b] lies between 16 and 31. *)
Definition from16to31 (a b : ascii) : bool :=
  JS.isDigit a && JS.isDigit b
  && Nat.leb 16 (10 * (nat_of_ascii a - 48) + (nat_of_ascii b - 48))
  && Nat.leb (10 * (nat_of_ascii a - 48) + (nat_of_ascii b - 48)) 31.

(** The host starts like an address of 10/8, 127/8, 169.254/16,
    192.168/16 or 172.16/12. *)
Definition privateRange (h : string) : Prop :=
  JS.startsWith h "10." = true
  \/ JS.startsWith h "127." = true
  \/ JS.startsWith h "169.254." = true
  \/ JS.startsWith h "192.168." = true
  \/ exists a b : ascii,
       JS.startsWith h ("172." +:+ String a (String b ".")) = true
       /\ from16to31 a b = true.

(** An allowlist entry as the loader leaves it: not empty, in lower case,
    without surrounding white space and without a comma. *)
Definition loadedEntry (d : string) : Prop :=
  d <> "" /\ JS.toLowerCase d = d /\ Startup.trim d = d
  /\ allChars (fun c => negb (Ascii.eqb c ",")) d = true.

End Shapes.

Import Shapes.

(* ===================================================================== *)
(** ** Further worked inputs *)
(* ===================================================================== *)

Module MoreSamples.

(** More results of the WHATWG parser, on top of [Samples.whatwg]. *)
Definition whatwg (s : string) : option Part000.URL :=
  if String.eqb s "http://api.localhost:3000/" then
    Some (Part000.mkURL "http:" "api.localhost" "http://api.localhost:3000"
            "/" "")
  else if String.eqb s "https://v2.api.example.com/" then
    Some (Part000.mkURL "https:" "v2.api.example.com"
            "https://v2.api.example.com" "/" "")
  else if String.eqb s "http://cafe/" then
    Some (Part000.mkURL "http:" "cafe" "http://cafe" "/" "")
  else Samples.whatwg s.

(** More results of the url-parse package, on top of [Samples.urlparse]. *)
Definition urlparse (s : string) : option ServerJs.URL :=
  if String.eqb s "http://localhost:3000/" then
    Some (ServerJs.mkURL "http:" "localhost:3000" "/" ""
            "http://localhost:3000/")
  else if String.eqb s "http://10.0.0.5:8080/admin" then
    Some (ServerJs.mkURL "http:" "10.0.0.5:8080" "/admin" ""
            "http://10.0.0.5:8080/admin")
  else if String.eqb s "http://10.0.0.5/admin" then
    Some (ServerJs.mkURL "http:" "10.0.0.5" "/admin" ""
            "http://10.0.0.5/admin")
  else if String.eqb s "http://cafe/" then
    Some (ServerJs.mkURL "http:" "cafe" "/" "" "http://cafe/")
  else Samples.urlparse s.

End MoreSamples.

(* ===================================================================== *)
(** ** Facts about the string operations *)
(* ===================================================================== *)

Section StringFacts.

Lemma startsWith_app (p t : string) : JS.startsWith (p +:+ t) p = true.
Proof.
  induction p as [|a p IH]; simpl; [done|].
  by rewrite Ascii.eqb_refl.
Qed.

Lemma startsWith_spec (s p : string) :
  JS.startsWith s p = true <-> exists t, s = p +:+ t.
Proof.
  split.
  - revert s. induction p as [|a p IH]; intros s H.
    + by exists s.
    + destruct s as [|b s]; simpl in H; [done|].
      apply andb_prop in H as [Hab Hs].
      apply Ascii.eqb_eq in Hab as ->.
      destruct (IH _ Hs) as [t ->]. by exists t.
  - intros [t ->]. apply startsWith_app.
Qed.

Lemma endsWith_unfold (s t : string) :
  JS.endsWith s t =
  String.eqb s t ||
  match s with
  | EmptyString => false
  | String _ s' => JS.endsWith s' t
  end.
Proof. by destruct s. Qed.

Lemma endsWith_spec (s t : string) :
  JS.endsWith s t = true <-> exists p, s = p +:+ t.
Proof.
  split.
  - induction s as [|c s IH]; rewrite endsWith_unfold; intros H;
      apply orb_prop in H as [H|H]; try done.
    + apply String.eqb_eq in H as <-. by exists "".
    + apply String.eqb_eq in H as <-. by exists "".
    + destruct (IH H) as [p ->]. by exists (String c p).
  - intros [p ->]. induction p as [|c p IH].
    + change ("" +:+ t) with t. rewrite endsWith_unfold.
      by rewrite String.eqb_refl.
    + change (String c p +:+ t) with (String c (p +:+ t)).
      rewrite endsWith_unfold, IH. apply orb_true_r.
Qed.

Lemma includes_unfold (s t : string) :
  JS.includes s t =
  JS.startsWith s t ||
  match s with
  | EmptyString => false
  | String _ s' => JS.includes s' t
  end.
Proof. by destruct s. Qed.

Lemma includes_spec (s t : string) :
  JS.includes s t = true <-> exists p q, s = p +:+ t +:+ q.
Proof.
  split.
  - induction s as [|c s IH]; rewrite includes_unfold; intros H;
      apply orb_prop in H as [H|H]; try done.
    + apply startsWith_spec in H as [q ->]. by exists "", q.
    + apply startsWith_spec in H as [q ->]. by exists "", q.
    + destruct (IH H) as (p & q & ->). by exists (String c p), q.
  - intros (p & q & ->). induction p as [|c p IH].
    + change ("" +:+ t +:+ q) with (t +:+ q).
      by rewrite includes_unfold, startsWith_app.
    + change (String c p +:+ t +:+ q) with (String c (p +:+ t +:+ q)).
      rewrite includes_unfold, IH. apply orb_true_r.
Qed.

Lemma dropChars_app (p r : string) :
  JS.dropChars (String.length p) (p +:+ r) = r.
Proof. induction p as [|a p IH]; simpl; [by destruct r | done]. Qed.

Lemma replace_unfold (s pat rep : string) :
  JS.replace s pat rep =
  if JS.startsWith s pat then rep +:+ JS.dropChars (String.length pat) s
  else match s with
       | EmptyString => EmptyString
       | String c s' => String c (JS.replace s' pat rep)
       end.
Proof. by destruct s. Qed.

(** Removing a prefix that is there leaves the rest of the string. *)
Lemma replace_prefix (p r : string) : JS.replace (p +:+ r) p "" = r.
Proof.
  rewrite replace_unfold, startsWith_app. simpl. apply dropChars_app.
Qed.

Lemma truthy_false (s : string) : JS.truthy s = false <-> s = "".
Proof.
  unfold JS.truthy. rewrite negb_false_iff. apply String.eqb_eq.
Qed.

Lemma truthy_true (s : string) : JS.truthy s = true <-> s <> "".
Proof.
  unfold JS.truthy. rewrite negb_true_iff. apply String.eqb_neq.
Qed.

Lemma arrayIncludes_In (arr : list string) (x : string) :
  JS.arrayIncludes arr x = true <-> In x arr.
Proof.
  unfold JS.arrayIncludes. rewrite existsb_exists. split.
  - intros (y & Hy & Heq). by apply String.eqb_eq in Heq as ->.
  - intros H. exists x. split; [done|apply String.eqb_refl].
Qed.

(** Lower-casing does not touch digits, dots and colons. *)
Lemma isDigit_lowerChar (c : ascii) :
  JS.isDigit (JS.lowerChar c) = JS.isDigit c.
Proof. by destruct c as [[] [] [] [] [] [] [] []]. Qed.

Lemma eqb_dot_lowerChar (c : ascii) :
  Ascii.eqb "." (JS.lowerChar c) = Ascii.eqb "." c.
Proof. by destruct c as [[] [] [] [] [] [] [] []]. Qed.

Lemma eqb_colon_lowerChar (c : ascii) :
  Ascii.eqb ":" (JS.lowerChar c) = Ascii.eqb ":" c.
Proof. by destruct c as [[] [] [] [] [] [] [] []]. Qed.

Lemma includes_colon_toLowerCase (s : string) :
  JS.includes (JS.toLowerCase s) ":" = JS.includes s ":".
Proof.
  induction s as [|c s IH]; [done|].
  cbn [JS.toLowerCase JS.includes JS.startsWith].
  by rewrite IH, eqb_colon_lowerChar.
Qed.

(** The test both programs run over the allowlist. *)
Lemma existsb_matchesEntry (entries : list string) (h : string) :
  existsb (fun d => String.eqb h d || JS.endsWith h ("." +:+ d)) entries = true
  <-> exists d, In d entries /\ matchesEntry h d.
Proof.
  rewrite existsb_exists. unfold matchesEntry.
  split; intros (d & Hd & H); exists d; (split; [done|]).
  - apply orb_prop in H as [H|H].
    + left. by apply String.eqb_eq.
    + right. by apply endsWith_spec.
  - apply orb_true_iff. destruct H as [->|H].
    + left. apply String.eqb_refl.
    + right. by apply endsWith_spec.
Qed.

Lemma existsb_no_matchesEntry (entries : list string) (h : string) :
  (forall d, In d entries -> ~ matchesEntry h d) ->
  existsb (fun d => String.eqb h d || JS.endsWith h ("." +:+ d)) entries
  = false.
Proof.
  intros Hno. apply not_true_is_false. intros H.
  apply existsb_matchesEntry in H as (d & Hd & Hm). by apply (Hno d).
Qed.

End StringFacts.

Section RegExpFacts.

Import RegExp.

Lemma append_empty (u v : string) : u +:+ v = "" -> u = "" /\ v = "".
Proof.
  destruct u as [|a u].
  - change ("" +:+ v) with v. by intros ->.
  - change (String a u +:+ v) with (String a (u +:+ v)). discriminate.
Qed.

Lemma nullable_lang (r : regex) : nullable r = true <-> lang r "".
Proof.
  split.
  - induction r as [| |p|r IHr s IHs|r IHr s IHs|r IHr]; simpl; intros H;
      try discriminate.
    + constructor.
    + apply andb_prop in H as [Hr Hs].
      apply (lang_cat r s "" ""); auto.
    + apply orb_prop in H as [H|H]; [apply lang_alt_l|apply lang_alt_r]; auto.
    + constructor.
  - remember "" as w eqn:Hw. intros H.
    induction H as [|p c Hp|r s u v Hr IHr Hs IHs|r s u Hr IHr|r s u Hs IHs
                    |r|r u v Hr IHr Hs IHs]; simpl; try done.
    + apply append_empty in Hw as [-> ->]. by rewrite IHr, IHs.
    + by rewrite IHr.
    + rewrite IHs by done. apply orb_true_r.
Qed.

Lemma lang_deriv (c : ascii) (r : regex) :
  forall s, lang (deriv c r) s -> lang r (String c s).
Proof.
  induction r as [| |p|r IHr s1 IHs|r IHr s1 IHs|r IHr]; simpl; intros s H.
  - inversion H.
  - inversion H.
  - destruct (p c) eqn:Hp; inversion H; subst. by constructor.
  - destruct (nullable r) eqn:Hn.
    + inversion H as [| | |? ? ? Hl|? ? ? Hr| |]; subst.
      * inversion Hl as [| |? ? u v Hu Hv| | | |]; subst.
        apply (lang_cat r s1 (String c u) v); auto.
      * apply (lang_cat r s1 "" (String c s)); [by apply nullable_lang|auto].
    + inversion H as [| |? ? u v Hu Hv| | | |]; subst.
      apply (lang_cat r s1 (String c u) v); auto.
  - inversion H; subst; [apply lang_alt_l|apply lang_alt_r]; auto.
  - inversion H as [| |? ? u v Hu Hv| | | |]; subst.
    apply (lang_star_cons r (String c u) v); auto.
Qed.

Lemma deriv_lang (c : ascii) (r : regex) (s : string) :
  lang r (String c s) -> lang (deriv c r) s.
Proof.
  remember (String c s) as w eqn:Hw. intros H. revert s Hw.
  induction H as [|p d Hp|r s1 u v Hr IHr Hs IHs|r s1 u Hr IHr|r s1 u Hs IHs
                  |r|r u v Hr IHr Hs IHs]; intros s Hw; simpl.
  - discriminate.
  - injection Hw as -> <-. rewrite Hp. constructor.
  - destruct u as [|a u].
    + apply nullable_lang in Hr. rewrite Hr. apply lang_alt_r. by apply IHs.
    + injection Hw as -> <-.
      destruct (nullable r); [apply lang_alt_l|];
        apply lang_cat; auto.
  - apply lang_alt_l. auto.
  - apply lang_alt_r. auto.
  - discriminate.
  - destruct u as [|a u].
    + by apply IHs.
    + injection Hw as -> <-. apply lang_cat; auto.
Qed.

(** The matcher decides membership in the language of the pattern. *)
Lemma matches_lang (s : string) :
  forall r, matches r s = true <-> lang r s.
Proof.
  induction s as [|c s IH]; intros r; simpl.
  - apply nullable_lang.
  - rewrite IH. split; [apply lang_deriv|apply deriv_lang].
Qed.

Lemma deriv_lowerChar (r : regex) (c : ascii) :
  caseBlind r -> deriv (JS.lowerChar c) r = deriv c r.
Proof.
  induction r as [| |p|r IHr s IHs|r IHr s IHs|r IHr]; simpl; intros H.
  - done.
  - done.
  - by rewrite H.
  - destruct H as [Hr Hs]. by rewrite IHr, IHs.
  - destruct H as [Hr Hs]. by rewrite IHr, IHs.
  - by rewrite IHr.
Qed.

Lemma caseBlind_deriv (r : regex) (c : ascii) :
  caseBlind r -> caseBlind (deriv c r).
Proof.
  induction r as [| |p|r IHr s IHs|r IHr s IHs|r IHr]; simpl; intros H.
  - done.
  - done.
  - by destruct (p c).
  - destruct H as [Hr Hs]. destruct (nullable r); simpl; auto.
  - destruct H as [Hr Hs]. auto.
  - auto.
Qed.

(** A pattern whose classes do not look at letter case matches a string
    exactly when it matches its lower-case form. *)
Lemma matches_toLowerCase (s : string) :
  forall r, caseBlind r -> matches r (JS.toLowerCase s) = matches r s.
Proof.
  induction s as [|c s IH]; intros r H; simpl; [done|].
  rewrite deriv_lowerChar by done.
  apply IH. by apply caseBlind_deriv.
Qed.

Lemma caseBlind_ipv4 : caseBlind Part000.ipv4.
Proof.
  unfold Part000.ipv4, times3, rep1to3, opt, digit, chr. simpl.
  repeat split; intros c;
    first [apply isDigit_lowerChar | apply eqb_dot_lowerChar].
Qed.

Lemma ipv4_toLowerCase (s : string) :
  matches Part000.ipv4 (JS.toLowerCase s) = matches Part000.ipv4 s.
Proof. apply matches_toLowerCase, caseBlind_ipv4. Qed.

End RegExpFacts.

(* ===================================================================== *)
(** ** The validator of part_000 *)
(* ===================================================================== *)

Section Part000Facts.

Import Part000.

Variable parseURL : string -> option URL.
Variable ALLOWLIST : list string.

Local Abbreviation validate := (parseAndValidateTarget parseURL ALLOWLIST).

(** The allowlist test is the exact-or-dot-suffix relation over the
    entries. *)
Lemma allowlisted_spec (h : string) :
  allowlisted ALLOWLIST h = true <->
  exists d, In d ALLOWLIST /\ matchesEntry h d.
Proof. apply existsb_matchesEntry. Qed.

Lemma isPrivateOrIpLiteral_literal (h : string) :
  RegExp.matches ipv4 h = true \/ JS.includes h ":" = true ->
  isPrivateOrIpLiteral h = true.
Proof.
  unfold isPrivateOrIpLiteral. intros [H|H].
  - destruct (negb (JS.truthy h)); [done|]. by rewrite H.
  - destruct (negb (JS.truthy h)); [done|].
    destruct (RegExp.matches ipv4 h); [done|]. by rewrite H.
Qed.

(** The five checks of the validator, in the order it makes them. *)
Lemma validate_missing : validate "" = Rejected (reasonText MissingTarget).
Proof. done. Qed.

Lemma validate_unparsed (target : string) :
  target <> "" -> parseURL target = None ->
  validate target = Rejected (reasonText InvalidURL).
Proof.
  intros Hne Hp. unfold parseAndValidateTarget.
  apply truthy_true in Hne. by rewrite Hne, Hp.
Qed.

Lemma validate_parsed (target : string) (u : URL) :
  target <> "" -> parseURL target = Some u ->
  validate target =
  if negb (JS.arrayIncludes allowedProtocols (JS.toLowerCase (protocol u)))
  then Rejected (reasonText UnsupportedScheme)
  else if isPrivateOrIpLiteral (JS.toLowerCase (hostname u))
  then Rejected (reasonText PrivateOrLiteralHost)
  else if negb (allowlisted ALLOWLIST (JS.toLowerCase (hostname u)))
  then Rejected (reasonText DomainNotAllowlisted)
  else Accepted u.
Proof.
  intros Hne Hp. unfold parseAndValidateTarget.
  apply truthy_true in Hne. by rewrite Hne, Hp.
Qed.

(** What an accepting verdict tells about the input. *)
Lemma validate_accepted (target : string) (u : URL) :
  validate target = Accepted u ->
  target <> "" /\ parseURL target = Some u
  /\ In (JS.toLowerCase (protocol u)) allowedProtocols
  /\ isPrivateOrIpLiteral (JS.toLowerCase (hostname u)) = false
  /\ allowlisted ALLOWLIST (JS.toLowerCase (hostname u)) = true.
Proof.
  intros H.
  assert (target <> "") as Hne by (intros ->; done).
  destruct (parseURL target) as [v|] eqn:Hp;
    [|by rewrite validate_unparsed in H].
  rewrite (validate_parsed _ _ Hne Hp) in H.
  destruct (JS.arrayIncludes allowedProtocols (JS.toLowerCase (protocol v)))
    eqn:Hs; [|done].
  destruct (isPrivateOrIpLiteral (JS.toLowerCase (hostname v))) eqn:Hpriv;
    [done|].
  destruct (allowlisted ALLOWLIST (JS.toLowerCase (hostname v))) eqn:Hal;
    [|done].
  simpl in H. injection H as ->.
  repeat split; try done. by apply arrayIncludes_In.
Qed.

Lemma handler_rejects (req : Request) (reason : string) :
  validate (toStr (orEmpty (query_url req))) = Rejected reason ->
  proxyHandler parseURL ALLOWLIST req = Respond 400 (Json [("error", reason)]).
Proof. unfold proxyHandler. by intros ->. Qed.

Lemma handler_forwards (req : Request) (u : URL) :
  validate (toStr (orEmpty (query_url req))) = Accepted u ->
  proxyHandler parseURL ALLOWLIST req =
  Forward (origin u) (pathname u +:+ search u).
Proof.
  intros H. unfold proxyHandler, proxy, router, pathRewrite. by rewrite H.
Qed.

End Part000Facts.

(** The reason strings are pairwise different, so a reason names one
    check. *)
Lemma reasonText_inj (r1 r2 : Part000.Reason) :
  Part000.reasonText r1 = Part000.reasonText r2 -> r1 = r2.
Proof. by destruct r1, r2. Qed.

(* ===================================================================== *)
(** ** C1: literal hosts *)
(* ===================================================================== *)

(** C1, as amended.  In part_000, every non-empty target that parses with
    a scheme among http, https, ws, wss and whose parsed hostname matches
    the dotted-decimal IPv4 pattern or contains a colon is rejected by
    [parseAndValidateTarget] with the PrivateOrLiteralHost reason, whatever
    the allowlist holds, and the [/proxy] handler answers 400 with that
    reason. *)
Theorem C1_literal_host_rejected
  (parseURL : string -> option Part000.URL) (ALLOWLIST : list string)
  (target : string) (u : Part000.URL) :
  target <> "" ->
  parseURL target = Some u ->
  In (JS.toLowerCase (Part000.protocol u)) Part000.allowedProtocols ->
  RegExp.matches Part000.ipv4 (Part000.hostname u) = true
    \/ JS.includes (Part000.hostname u) ":" = true ->
  Part000.parseAndValidateTarget parseURL ALLOWLIST target
    = Part000.Rejected (Part000.reasonText Part000.PrivateOrLiteralHost)
  /\ forall req : Request,
       toStr (orEmpty (query_url req)) = target ->
       Part000.proxyHandler parseURL ALLOWLIST req
         = Respond 400
             (Json [("error", Part000.reasonText Part000.PrivateOrLiteralHost)]).
Proof.
  intros Hne Hp Hs Hlit.
  assert (Part000.parseAndValidateTarget parseURL ALLOWLIST target
          = Part000.Rejected
              (Part000.reasonText Part000.PrivateOrLiteralHost)) as Hv.
  { rewrite (validate_parsed _ _ _ _ Hne Hp).
    apply arrayIncludes_In in Hs. rewrite Hs. simpl negb. cbv iota.
    rewrite isPrivateOrIpLiteral_literal; [done|].
    by rewrite ipv4_toLowerCase, includes_colon_toLowerCase. }
  split; [done|].
  intros req <-. by apply handler_rejects.
Qed.

Lemma C1_literal_host_rejected_witness :
  Part000.parseAndValidateTarget Samples.whatwg ["127.0.0.1"; "example.com"]
    "http://127.0.0.1:8080/"
    = Part000.Rejected (Part000.reasonText Part000.PrivateOrLiteralHost)
  /\ Part000.proxyHandler Samples.whatwg ["127.0.0.1"; "example.com"]
       (Samples.get (QString "http://127.0.0.1:8080/"))
     = Respond 400
         (Json [("error", "Private hosts and IP literals are blocked")]).
Proof.
  destruct (C1_literal_host_rejected Samples.whatwg
              ["127.0.0.1"; "example.com"] "http://127.0.0.1:8080/"
              (Part000.mkURL "http:" "127.0.0.1" "http://127.0.0.1:8080" "/" ""))
    as [Hv Hh].
  - discriminate.
  - reflexivity.
  - simpl. tauto.
  - left. reflexivity.
  - split; [exact Hv|]. apply Hh. reflexivity.
Defined.

(** C1 as stated fails.  In part_000 the scheme is checked before the
    host, so [ftp://127.0.0.1/] is rejected for its scheme; in
    src/server.js a dotted-decimal host outside the private ranges passes
    the host check, so [http://8.8.8.8/] is accepted when the allowlist
    holds [8.8.8.8]. *)
Lemma C1_counterexample :
  (exists u, Samples.whatwg "ftp://127.0.0.1/" = Some u
     /\ RegExp.matches Part000.ipv4 (Part000.hostname u) = true)
  /\ Part000.parseAndValidateTarget Samples.whatwg ["example.com"]
       "ftp://127.0.0.1/"
     = Part000.Rejected (Part000.reasonText Part000.UnsupportedScheme)
  /\ Part000.reasonText Part000.UnsupportedScheme
     <> Part000.reasonText Part000.PrivateOrLiteralHost
  /\ (exists u, Samples.urlparse "http://8.8.8.8/" = Some u
        /\ RegExp.matches ServerJs.ipv4 (ServerJs.host u) = true)
  /\ ServerJs.allowedTarget Samples.urlparse ["8.8.8.8"] "http://8.8.8.8/"
     = ServerJs.Ok "http://8.8.8.8/".
Proof.
  split; [eexists; split; reflexivity|].
  split; [reflexivity|].
  split; [discriminate|].
  split; [eexists; split; reflexivity|].
  reflexivity.
Qed.

(* ===================================================================== *)
(** ** C2: the scheme gate *)
(* ===================================================================== *)

(** C2, as amended.  In part_000, every non-empty target that parses and
    whose scheme, lower-cased, is not one of http, https, ws, wss is
    rejected by [parseAndValidateTarget] with the UnsupportedScheme reason
    and answered 400 with it, whatever the allowlist holds; and every
    accepted target has one of those four schemes. *)
Theorem C2_scheme_gate
  (parseURL : string -> option Part000.URL) (ALLOWLIST : list string)
  (target : string) (u : Part000.URL) :
  (target <> "" ->
   parseURL target = Some u ->
   ~ In (JS.toLowerCase (Part000.protocol u)) Part000.allowedProtocols ->
   Part000.parseAndValidateTarget parseURL ALLOWLIST target
     = Part000.Rejected (Part000.reasonText Part000.UnsupportedScheme)
   /\ forall req : Request,
        toStr (orEmpty (query_url req)) = target ->
        Part000.proxyHandler parseURL ALLOWLIST req
          = Respond 400
              (Json [("error", Part000.reasonText Part000.UnsupportedScheme)]))
  /\ (Part000.parseAndValidateTarget parseURL ALLOWLIST target
        = Part000.Accepted u ->
      In (JS.toLowerCase (Part000.protocol u)) Part000.allowedProtocols).
Proof.
  split.
  - intros Hne Hp Hs.
    assert (Part000.parseAndValidateTarget parseURL ALLOWLIST target
            = Part000.Rejected
                (Part000.reasonText Part000.UnsupportedScheme)) as Hv.
    { rewrite (validate_parsed _ _ _ _ Hne Hp).
      destruct (JS.arrayIncludes Part000.allowedProtocols
                  (JS.toLowerCase (Part000.protocol u))) eqn:Hin; [|done].
      by apply arrayIncludes_In in Hin. }
    split; [done|]. intros req <-. by apply handler_rejects.
  - intros Hv. by apply validate_accepted in Hv as (_ & _ & Hs & _).
Qed.

Lemma C2_scheme_gate_witness :
  (Part000.parseAndValidateTarget Samples.whatwg ["example.com"]
     "ftp://example.com/"
     = Part000.Rejected "Only HTTP, HTTPS, WS, and WSS are allowed"
   /\ Part000.proxyHandler Samples.whatwg ["example.com"]
        (Samples.get (QString "ftp://example.com/"))
      = Respond 400
          (Json [("error", "Only HTTP, HTTPS, WS, and WSS are allowed")]))
  /\ In "https:" Part000.allowedProtocols.
Proof.
  split.
  - destruct (proj1 (C2_scheme_gate Samples.whatwg ["example.com"]
                       "ftp://example.com/"
                       (Part000.mkURL "ftp:" "example.com"
                          "ftp://example.com" "/" ""))) as [Hv Hh].
    + discriminate.
    + reflexivity.
    + simpl. intuition discriminate.
    + split; [exact Hv|]. apply Hh. reflexivity.
  - apply (proj2 (C2_scheme_gate Samples.whatwg ["example.com"]
                    "https://example.com/foo?x=1"
                    (Part000.mkURL "https:" "example.com"
                       "https://example.com" "/foo" "?x=1"))).
    reflexivity.
Defined.

(** C2 as stated fails on src/server.js: [allowedTarget] never looks at the
    scheme, so [ftp://example.com/] is accepted and forwarded when
    [example.com] is allowlisted. *)
Lemma C2_counterexample :
  (exists u, Samples.urlparse "ftp://example.com/" = Some u
     /\ ServerJs.protocol u = "ftp:")
  /\ ServerJs.allowedTarget Samples.urlparse ["example.com"]
       "ftp://example.com/"
     = ServerJs.Ok "ftp://example.com/"
  /\ ServerJs.proxyHandler Samples.urlparse ["example.com"]
       "https://example.com" (Samples.get (QString "ftp://example.com/"))
     = Forward "ftp://example.com/" "/".
Proof.
  split; [eexists; split; reflexivity|].
  split; reflexivity.
Qed.

(* ===================================================================== *)
(** ** The validator and the handler of src/server.js *)
(* ===================================================================== *)

Section ServerJsFacts.

Import ServerJs.

Variable parseURL : string -> option URL.
Variable ALLOWLIST : list string.
Variable DEFAULT_TARGET : string.

Local Abbreviation check := (allowedTarget parseURL ALLOWLIST).
Local Abbreviation handler := (proxyHandler parseURL ALLOWLIST DEFAULT_TARGET).

Lemma isPrivateHost_empty : isPrivateHost "" = true.
Proof. done. Qed.

Lemma allowedTarget_parsed (urlStr : string) (u : URL) :
  parseURL urlStr = Some u ->
  isPrivateHost (JS.toLowerCase (host u)) = false ->
  check urlStr =
  if existsb (fun allowed =>
                String.eqb (JS.splitHead ":" (JS.toLowerCase (host u))) allowed
                || JS.endsWith (JS.splitHead ":" (JS.toLowerCase (host u)))
                     ("." +:+ allowed))
       ALLOWLIST
  then Ok (href u) else Failed "Host not in allowlist".
Proof.
  intros Hp Hpriv. unfold allowedTarget. rewrite Hp, Hpriv.
  destruct (JS.truthy (JS.toLowerCase (host u))) eqn:Ht; [done|].
  apply truthy_false in Ht. by rewrite Ht in Hpriv.
Qed.

Lemma handler_method_not_allowed (req : Request) :
  ~ In (method req) allowedMethods ->
  handler req = Respond 405 (Text "Method Not Allowed").
Proof.
  intros Hm. unfold proxyHandler.
  destruct (JS.arrayIncludes allowedMethods (method req)) eqn:Hin; [|done].
  by apply arrayIncludes_In in Hin.
Qed.

Lemma handler_default_target (req : Request) :
  In (method req) allowedMethods ->
  truthy (query_url req) = false ->
  handler req = Forward DEFAULT_TARGET (path req).
Proof.
  intros Hm Hq. apply arrayIncludes_In in Hm.
  unfold proxyHandler, proxyMiddleware, router, pathRewrite.
  by rewrite Hm, Hq.
Qed.

Lemma handler_never_throws_in_router (req : Request) :
  routerThrew (handler req) = false.
Proof.
  unfold proxyHandler.
  destruct (negb (JS.arrayIncludes allowedMethods (method req))); [done|].
  unfold proxyMiddleware, router.
  destruct (truthy (query_url req)) eqn:Hq; simpl.
  - destruct (check (toStr (query_url req))) as [reason|url]; [done|].
    by destruct (pathRewrite _ _ _).
  - by destruct (pathRewrite _ _ _).
Qed.

(** Whenever the router would throw, the handler has answered already. *)
Lemma router_throw_answered (req : Request) (message : string) :
  router parseURL ALLOWLIST DEFAULT_TARGET req = inr message ->
  exists status body, handler req = Respond status body.
Proof.
  unfold router, proxyHandler.
  destruct (negb (JS.arrayIncludes allowedMethods (method req)));
    [by eexists _, _|].
  destruct (truthy (query_url req)); simpl; [|done].
  destruct (check (toStr (query_url req))) as [reason|url]; [|done].
  by eexists _, _.
Qed.

(** What the router throws is the prefix followed by the reason
    [allowedTarget] gave for the [url] parameter. *)
Lemma router_throws (req : Request) (thrown : string) :
  router parseURL ALLOWLIST DEFAULT_TARGET req = inr thrown ->
  exists reason,
    check (toStr (query_url req)) = Failed reason
    /\ thrown = rejectPrefix +:+ reason.
Proof.
  unfold router.
  destruct (truthy (query_url req)); simpl; [|done].
  destruct (check (toStr (query_url req))) as [reason|url]; [|done].
  intros [= <-]. by exists reason.
Qed.

End ServerJsFacts.

(** The reasons [allowedTarget] gives. *)
Lemma allowedTarget_reasons
  (parseURL : string -> option ServerJs.URL) (ALLOWLIST : list string)
  (urlStr reason : string) :
  ServerJs.allowedTarget parseURL ALLOWLIST urlStr = ServerJs.Failed reason ->
  In reason ["Bad URL"; "No host"; "Private/invalid host";
             "Host not in allowlist"].
Proof.
  unfold ServerJs.allowedTarget.
  destruct (parseURL urlStr) as [u|]; [|intros [= <-]; simpl; tauto].
  destruct (negb (JS.truthy _)); [intros [= <-]; simpl; tauto|].
  destruct (ServerJs.isPrivateHost _); [intros [= <-]; simpl; tauto|].
  destruct (existsb _ ALLOWLIST); [done|intros [= <-]; simpl; tauto].
Qed.

Section Part000Handler.

Import Part000.

Variable parseURL : string -> option URL.
Variable ALLOWLIST : list string.

Lemma part000_handler_missing_url (req : Request) :
  truthy (query_url req) = false ->
  proxyHandler parseURL ALLOWLIST req
  = Respond 400 (Json [("error", reasonText MissingTarget)]).
Proof.
  intros Hq. apply handler_rejects. unfold orEmpty. by rewrite Hq.
Qed.

Lemma part000_handler_by_url (req1 req2 : Request) :
  query_url req1 = query_url req2 ->
  proxyHandler parseURL ALLOWLIST req1 = proxyHandler parseURL ALLOWLIST req2.
Proof.
  intros Hq. unfold proxyHandler, proxy, router, pathRewrite. by rewrite Hq.
Qed.

Lemma part000_handler_never_throws_in_router (req : Request) :
  routerThrew (proxyHandler parseURL ALLOWLIST req) = false.
Proof.
  unfold proxyHandler, proxy, router.
  by destruct (parseAndValidateTarget parseURL ALLOWLIST _).
Qed.

(** Whenever the router would throw, the handler has answered 400 with
    the reason the router would put in its error. *)
Lemma part000_router_throw_answered (req : Request) (message : string) :
  router parseURL ALLOWLIST req = inr message ->
  exists reason,
    message = rejectPrefix +:+ reason
    /\ proxyHandler parseURL ALLOWLIST req
       = Respond 400 (Json [("error", reason)]).
Proof.
  unfold router, proxyHandler.
  destruct (parseAndValidateTarget parseURL ALLOWLIST _) as [reason|u];
    [|done].
  intros [= <-]. by exists reason.
Qed.

(** What the router throws is the prefix followed by one of the five
    reasons of the validator, the one it gave for the [url] parameter. *)
Lemma part000_router_throws (req : Request) (thrown : string) :
  router parseURL ALLOWLIST req = inr thrown ->
  exists r : Reason,
    parseAndValidateTarget parseURL ALLOWLIST (toStr (orEmpty (query_url req)))
    = Rejected (reasonText r)
    /\ thrown = rejectPrefix +:+ reasonText r.
Proof.
  unfold router, parseAndValidateTarget.
  destruct (negb (JS.truthy _)); [intros [= <-]; by eexists|].
  destruct (parseURL _) as [u|]; [|intros [= <-]; by eexists].
  destruct (negb (JS.arrayIncludes _ _)); [intros [= <-]; by eexists|].
  destruct (isPrivateOrIpLiteral _); [intros [= <-]; by eexists|].
  destruct (negb (allowlisted _ _)); [intros [= <-]; by eexists|].
  done.
Qed.

End Part000Handler.

(* ===================================================================== *)
(** ** C3: requests without a [url] parameter *)
(* ===================================================================== *)

(** C3, as amended.  For a [/proxy] request whose [url] parameter is
    absent (or empty): src/server.js forwards it to the configured
    [DEFAULT_TARGET], with the request path unchanged and without
    validation, provided its method is one of the allowed methods;
    part_000 has no default upstream and answers 400 with the
    MissingTarget reason. *)
Theorem C3_missing_url
  (parseS : string -> option ServerJs.URL)
  (parseP : string -> option Part000.URL)
  (ALLOWLIST : list string) (DEFAULT_TARGET : string) (req : Request) :
  truthy (query_url req) = false ->
  (In (method req) ServerJs.allowedMethods ->
   ServerJs.proxyHandler parseS ALLOWLIST DEFAULT_TARGET req
     = Forward DEFAULT_TARGET (path req))
  /\ Part000.proxyHandler parseP ALLOWLIST req
     = Respond 400 (Json [("error", Part000.reasonText Part000.MissingTarget)]).
Proof.
  intros Hq. split.
  - intros Hm. by apply handler_default_target.
  - by apply part000_handler_missing_url.
Qed.

Lemma C3_missing_url_witness :
  ServerJs.proxyHandler Samples.urlparse ["example.com"] "https://example.com"
    (Samples.get QUndefined)
    = Forward "https://example.com" "/proxy"
  /\ Part000.proxyHandler Samples.whatwg ["example.com"]
       (Samples.get QUndefined)
     = Respond 400 (Json [("error", "Missing 'url' query parameter")]).
Proof.
  destruct (C3_missing_url Samples.urlparse Samples.whatwg ["example.com"]
              "https://example.com" (Samples.get QUndefined)) as [Hs Hp].
  - reflexivity.
  - split; [|exact Hp]. apply Hs. simpl. tauto.
Defined.

(** C3 as stated fails: part_000 rejects a request without [url] as a
    validation error, and src/server.js answers 405, without forwarding,
    when the method is not an allowed one. *)
Lemma C3_counterexample :
  query_url (Samples.get QUndefined) = QUndefined
  /\ Part000.proxyHandler Samples.whatwg ["example.com"]
       (Samples.get QUndefined)
     = Respond 400 (Json [("error", "Missing 'url' query parameter")])
  /\ query_url (Samples.trace QUndefined) = QUndefined
  /\ ServerJs.proxyHandler Samples.urlparse ["example.com"]
       "https://example.com" (Samples.trace QUndefined)
     = Respond 405 (Text "Method Not Allowed").
Proof. repeat split. Qed.

(* ===================================================================== *)
(** ** C7: the method gate *)
(* ===================================================================== *)

(** C7, as amended.  In src/server.js, every [/proxy] request whose method
    is not one of GET, POST, PUT, PATCH, DELETE, HEAD, OPTIONS is answered
    405 and is not forwarded.  part_000 has no method gate: what its
    handler does with a request depends on the [url] parameter alone. *)
Theorem C7_method_gate
  (parseS : string -> option ServerJs.URL)
  (parseP : string -> option Part000.URL)
  (ALLOWLIST : list string) (DEFAULT_TARGET : string) (req : Request) :
  ~ In (method req) ServerJs.allowedMethods ->
  ServerJs.proxyHandler parseS ALLOWLIST DEFAULT_TARGET req
    = Respond 405 (Text "Method Not Allowed")
  /\ forwarded (ServerJs.proxyHandler parseS ALLOWLIST DEFAULT_TARGET req)
     = false
  /\ forall req' : Request,
       query_url req' = query_url req ->
       Part000.proxyHandler parseP ALLOWLIST req'
         = Part000.proxyHandler parseP ALLOWLIST req.
Proof.
  intros Hm.
  rewrite (handler_method_not_allowed parseS ALLOWLIST DEFAULT_TARGET req Hm).
  repeat split. intros req' Hq. by apply part000_handler_by_url.
Qed.

Lemma C7_method_gate_witness :
  ServerJs.proxyHandler Samples.urlparse ["example.com"] "https://example.com"
    (Samples.trace (QString "https://example.com/foo?x=1"))
    = Respond 405 (Text "Method Not Allowed")
  /\ Part000.proxyHandler Samples.whatwg ["example.com"]
       (Samples.get (QString "https://example.com/foo?x=1"))
     = Part000.proxyHandler Samples.whatwg ["example.com"]
         (Samples.trace (QString "https://example.com/foo?x=1")).
Proof.
  destruct (C7_method_gate Samples.urlparse Samples.whatwg ["example.com"]
              "https://example.com"
              (Samples.trace (QString "https://example.com/foo?x=1")))
    as (H405 & _ & Hsame).
  - simpl. intuition discriminate.
  - split; [exact H405|]. apply Hsame. reflexivity.
Defined.

(** C7 as stated fails on part_000: a TRACE request for an allowlisted
    target is forwarded. *)
Lemma C7_counterexample :
  JS.arrayIncludes ServerJs.allowedMethods
    (method (Samples.trace (QString "https://example.com/foo?x=1"))) = false
  /\ Part000.proxyHandler Samples.whatwg ["example.com"]
       (Samples.trace (QString "https://example.com/foo?x=1"))
     = Forward "https://example.com" "/foo?x=1".
Proof. split; reflexivity. Qed.

(* ===================================================================== *)
(** ** C10: the router never throws behind the pre-check *)
(* ===================================================================== *)

(** C10.  For every request, with or without a [url] parameter, the
    [/proxy] handler of either program never ends in the error thrown by
    the router: the pre-check has applied the same validator to the same
    string, so a request that reaches the proxy middleware is routed. *)
Theorem C10_router_rejection_unreachable
  (parseP : string -> option Part000.URL)
  (parseS : string -> option ServerJs.URL)
  (ALLOWLIST : list string) (DEFAULT_TARGET : string) (req : Request) :
  routerThrew (Part000.proxyHandler parseP ALLOWLIST req) = false
  /\ routerThrew (ServerJs.proxyHandler parseS ALLOWLIST DEFAULT_TARGET req)
     = false.
Proof.
  split.
  - apply part000_handler_never_throws_in_router.
  - apply handler_never_throws_in_router.
Qed.

(* ===================================================================== *)
(** ** C4: how [onError] tells a rejection from any other error *)
(* ===================================================================== *)

(** C4, as amended.  In both programs [onError] tells the error of a
    rejected target from any other error by the text of the message and by
    nothing else.  While the headers of the response are not sent, it
    writes a 400 exactly when the message starts with the rejection prefix
    of the program.  Once they are sent it writes nothing, whatever the
    message.  The message of the error the router throws for a target that
    its validator rejects is the prefix followed by the reason of the
    validator, so [onError] applied to that message writes the 400 that
    carries this reason before the headers are sent, and throws once they
    are sent, because its branch for rejections does not look at
    [res.headersSent].  Whether the proxy library passes the error of the
    router, or any error with such a message, to [onError] is decided by
    the library and is not stated here. *)
Theorem C4_classified_by_prefix
  (parseP : string -> option Part000.URL)
  (parseS : string -> option ServerJs.URL)
  (ALLOWLIST : list string) (DEFAULT_TARGET : string) (message : string) :
  wrote400 (Part000.onError message false)
    = JS.startsWith message Part000.rejectPrefix
  /\ wrote400 (ServerJs.onError message false)
     = JS.startsWith message ServerJs.rejectPrefix
  /\ written (Part000.onError message true) = None
  /\ written (ServerJs.onError message true) = None
  /\ (forall (req : Request) (thrown : string),
        Part000.router parseP ALLOWLIST req = inr thrown ->
        exists r : Part000.Reason,
          Part000.parseAndValidateTarget parseP ALLOWLIST
            (toStr (orEmpty (query_url req)))
          = Part000.Rejected (Part000.reasonText r)
          /\ thrown = Part000.rejectPrefix +:+ Part000.reasonText r
          /\ Part000.onError thrown false
             = Wrote 400 (Json [("error", Part000.reasonText r)])
          /\ Part000.onError thrown true = ThrewHeadersSent)
  /\ (forall (req : Request) (thrown : string),
        ServerJs.router parseS ALLOWLIST DEFAULT_TARGET req = inr thrown ->
        exists reason : string,
          ServerJs.allowedTarget parseS ALLOWLIST (toStr (query_url req))
          = ServerJs.Failed reason
          /\ In reason ["Bad URL"; "No host"; "Private/invalid host";
                        "Host not in allowlist"]
          /\ thrown = ServerJs.rejectPrefix +:+ reason
          /\ ServerJs.onError thrown false
             = Wrote 400 (Json [("error", "Target rejected");
                                ("reason", reason)])
          /\ ServerJs.onError thrown true = ThrewHeadersSent).
Proof.
  split; [|split; [|split; [|split; [|split]]]].
  - unfold Part000.onError.
    by destruct (JS.startsWith message Part000.rejectPrefix).
  - unfold ServerJs.onError.
    by destruct (JS.startsWith message ServerJs.rejectPrefix).
  - unfold Part000.onError.
    by destruct (JS.startsWith message Part000.rejectPrefix).
  - unfold ServerJs.onError.
    by destruct (JS.startsWith message ServerJs.rejectPrefix).
  - intros req thrown Hr.
    apply part000_router_throws in Hr as (r & Hv & ->).
    exists r. split; [done|]. split; [done|].
    unfold Part000.onError. by rewrite startsWith_app, replace_prefix.
  - intros req thrown Hr.
    apply router_throws in Hr as (reason & Hc & ->).
    exists reason. split; [done|].
    split; [by apply (allowedTarget_reasons parseS ALLOWLIST _ _ Hc)|].
    split; [done|].
    unfold ServerJs.onError. by rewrite startsWith_app, replace_prefix.
Qed.

Lemma C4_classified_by_prefix_witness :
  (exists r : Part000.Reason,
     Part000.parseAndValidateTarget Samples.whatwg ["example.com"]
       "http://127.0.0.1:8080/"
     = Part000.Rejected (Part000.reasonText r)
     /\ "REJECTED_TARGET:Private hosts and IP literals are blocked"
        = Part000.rejectPrefix +:+ Part000.reasonText r
     /\ Part000.onError
          "REJECTED_TARGET:Private hosts and IP literals are blocked" false
        = Wrote 400 (Json [("error", Part000.reasonText r)])
     /\ Part000.onError
          "REJECTED_TARGET:Private hosts and IP literals are blocked" true
        = ThrewHeadersSent)
  /\ (exists reason : string,
        ServerJs.allowedTarget Samples.urlparse ["example.com"]
          "https://evil-example.com.com/"
        = ServerJs.Failed reason
        /\ In reason ["Bad URL"; "No host"; "Private/invalid host";
                      "Host not in allowlist"]
        /\ "REJECT:Host not in allowlist" = ServerJs.rejectPrefix +:+ reason
        /\ ServerJs.onError "REJECT:Host not in allowlist" false
           = Wrote 400 (Json [("error", "Target rejected");
                              ("reason", reason)])
        /\ ServerJs.onError "REJECT:Host not in allowlist" true
           = ThrewHeadersSent).
Proof.
  destruct (C4_classified_by_prefix Samples.whatwg Samples.urlparse
              ["example.com"] "https://example.com" "socket hang up")
    as (_ & _ & _ & _ & HP & HS).
  split.
  - apply (HP (Samples.get (QString "http://127.0.0.1:8080/"))).
    reflexivity.
  - apply (HS (Samples.get (QString "https://evil-example.com.com/"))).
    reflexivity.
Defined.

(** C4 as stated fails: a rejection is marked by nothing but the text of
    the message.  "socket hang up" is none of the reasons of either
    validator, so no run of either router throws an error whose message is
    the prefix followed by it; [onError] answers that message all the same
    as the rejection of a target, with status 400. *)
Lemma C4_counterexample :
  Part000.onError "REJECTED_TARGET:socket hang up" false
    = Wrote 400 (Json [("error", "socket hang up")])
  /\ (forall (parseP : string -> option Part000.URL)
             (ALLOWLIST : list string) (req : Request),
        Part000.router parseP ALLOWLIST req
          <> inr "REJECTED_TARGET:socket hang up")
  /\ ServerJs.onError "REJECT:socket hang up" false
     = Wrote 400 (Json [("error", "Target rejected");
                        ("reason", "socket hang up")])
  /\ (forall (parseS : string -> option ServerJs.URL)
             (ALLOWLIST : list string) (DEFAULT_TARGET : string)
             (req : Request),
        ServerJs.router parseS ALLOWLIST DEFAULT_TARGET req
          <> inr "REJECT:socket hang up").
Proof.
  split; [reflexivity|]. split; [|split; [reflexivity|]].
  - intros parseP ALLOWLIST req Hr.
    apply part000_router_throws in Hr as (r & _ & Hm).
    by destruct r.
  - intros parseS ALLOWLIST DEFAULT_TARGET req Hr.
    apply router_throws in Hr as (reason & Hc & Hm).
    apply allowedTarget_reasons in Hc.
    cbn [In] in Hc. destruct Hc as [<-|[<-|[<-|[<-|[]]]]]; done.
Qed.

(* ===================================================================== *)
(** ** C5 and C6: the allowlist match *)
(* ===================================================================== *)

(** C5, as amended.  A target that reaches the allowlist test (in
    part_000: non-empty, parsed, with an allowed scheme and a host that is
    not private or literal; in src/server.js: parsed, with a host that
    passes [isPrivateHost]) and whose lower-cased hostname matches no
    allowlist entry, where matching an entry means being equal to it or
    ending with a dot followed by it, is rejected with the
    DomainNotAllowlisted reason (in src/server.js, "Host not in
    allowlist").  Containing an entry as a substring is not a match. *)
Theorem C5_unmatched_host_rejected
  (parseP : string -> option Part000.URL)
  (parseS : string -> option ServerJs.URL)
  (ALLOWLIST : list string) (target : string) :
  (forall u : Part000.URL,
     target <> "" ->
     parseP target = Some u ->
     In (JS.toLowerCase (Part000.protocol u)) Part000.allowedProtocols ->
     Part000.isPrivateOrIpLiteral (JS.toLowerCase (Part000.hostname u))
       = false ->
     (forall d, In d ALLOWLIST ->
        ~ matchesEntry (JS.toLowerCase (Part000.hostname u)) d) ->
     Part000.parseAndValidateTarget parseP ALLOWLIST target
       = Part000.Rejected (Part000.reasonText Part000.DomainNotAllowlisted))
  /\ (forall v : ServerJs.URL,
        parseS target = Some v ->
        ServerJs.isPrivateHost (JS.toLowerCase (ServerJs.host v)) = false ->
        (forall d, In d ALLOWLIST ->
           ~ matchesEntry
               (JS.splitHead ":" (JS.toLowerCase (ServerJs.host v))) d) ->
        ServerJs.allowedTarget parseS ALLOWLIST target
          = ServerJs.Failed "Host not in allowlist").
Proof.
  split.
  - intros u Hne Hp Hs Hpriv Hno.
    rewrite (validate_parsed _ _ _ _ Hne Hp), Hpriv.
    apply arrayIncludes_In in Hs. rewrite Hs.
    unfold Part000.allowlisted. by rewrite existsb_no_matchesEntry.
  - intros v Hp Hpriv Hno.
    rewrite (allowedTarget_parsed _ _ _ _ Hp Hpriv).
    by rewrite existsb_no_matchesEntry.
Qed.

Lemma C5_unmatched_host_rejected_witness :
  Part000.parseAndValidateTarget Samples.whatwg ["example.com"]
    "https://evil-example.com.com/"
  = Part000.Rejected "Domain is not in PROXY_ALLOWLIST"
  /\ ServerJs.allowedTarget Samples.urlparse ["example.com"]
       "https://evil-example.com.com/"
     = ServerJs.Failed "Host not in allowlist".
Proof.
  assert (forall h : string,
            String.eqb h "example.com" = false ->
            JS.endsWith h ".example.com" = false ->
            forall d, In d ["example.com"] -> ~ matchesEntry h d) as Hno.
  { intros h Heq Hend d [<-|[]] [->|Hsuf].
    - by rewrite String.eqb_refl in Heq.
    - apply endsWith_spec in Hsuf.
      change ("." +:+ "example.com") with ".example.com" in Hsuf.
      congruence. }
  split.
  - apply (proj1 (C5_unmatched_host_rejected Samples.whatwg Samples.urlparse
                    ["example.com"] "https://evil-example.com.com/")
             (Part000.mkURL "https:" "evil-example.com.com"
                "https://evil-example.com.com" "/" "")).
    + discriminate.
    + reflexivity.
    + simpl. tauto.
    + reflexivity.
    + by apply Hno.
  - apply (proj2 (C5_unmatched_host_rejected Samples.whatwg Samples.urlparse
                    ["example.com"] "https://evil-example.com.com/")
             (ServerJs.mkURL "https:" "evil-example.com.com" "/" ""
                "https://evil-example.com.com/")).
    + reflexivity.
    + reflexivity.
    + by apply Hno.
Defined.

(** C5 as stated fails.  With [hub.com] and [github.com] both allowlisted,
    the hostname [github.com] contains the entry [hub.com] without being
    it or a subdomain of it, and is accepted, because the test runs over
    all entries; and with a scheme outside the four, [evil-example.com.com]
    is rejected for its scheme, not for its domain. *)
Lemma C5_counterexample :
  In "hub.com" ["hub.com"; "github.com"]
  /\ JS.includes "github.com" "hub.com" = true
  /\ ~ matchesEntry "github.com" "hub.com"
  /\ Part000.parseAndValidateTarget Samples.whatwg ["hub.com"; "github.com"]
       "https://github.com/"
     = Part000.Accepted
         (Part000.mkURL "https:" "github.com" "https://github.com" "/" "")
  /\ Part000.parseAndValidateTarget Samples.whatwg ["example.com"]
       "ftp://evil-example.com.com/"
     = Part000.Rejected (Part000.reasonText Part000.UnsupportedScheme).
Proof.
  split; [simpl; tauto|].
  split; [reflexivity|].
  split.
  - intros [Heq|Hsuf]; [discriminate|].
    apply endsWith_spec in Hsuf. vm_compute in Hsuf. discriminate.
  - split; reflexivity.
Qed.




(* ===================================================================== *)
(** ** C8 and C9: the header hooks *)
(* ===================================================================== *)

Section HeaderFacts.

Context {V : Type}.

(** Deleting a list of keys, one after the other as [forEach] does. *)
Lemma lookup_delete_all (f : string -> string) (names : list string) :
  forall (m : gmap string V) (k : string),
    fold_left (fun m name => delete (f name) m) names m !! k
    = if decide (k ∈ f <$> names) then None else m !! k.
Proof.
  induction names as [|name names IH]; intros m k.
  - done.
  - rewrite fmap_cons. cbn [fold_left]. rewrite IH.
    destruct (decide (k = f name)) as [->|Hne].
    + rewrite lookup_delete_eq, (decide_True (P := _ ∈ _ :: _)).
      * by case_decide.
      * apply elem_of_cons. by left.
    + rewrite lookup_delete_ne by done.
      destruct (decide (k ∈ f <$> names)) as [Hin|Hnin].
      * rewrite decide_True; [done|]. apply elem_of_cons. by right.
      * rewrite decide_False; [done|]. rewrite not_elem_of_cons. by split.
Qed.

End HeaderFacts.

Lemma part000_request_hook (h : OutHeaders) (k : string) :
  upstreamBoundHeaders Part000.hooks h !! k = afterRequestHook h k.
Proof.
  unfold upstreamBoundHeaders, afterRequestHook. cbn [Part000.hooks onProxyReq].
  unfold Part000.onProxyReq, removeHeader, setHeader.
  rewrite (lookup_delete_all JS.toLowerCase).
  change (JS.toLowerCase <$> _) with hopByHop.
  destruct (decide (k ∈ hopByHop)); [done|].
  change (JS.toLowerCase "X-Forwarded-By") with "x-forwarded-by".
  destruct (decide (k = "x-forwarded-by")) as [->|Hne].
  - by rewrite lookup_insert_eq.
  - by rewrite lookup_insert_ne.
Qed.

Lemma serverjs_request_hook (h : OutHeaders) (k : string) :
  upstreamBoundHeaders ServerJs.hooks h !! k = afterRequestHook h k.
Proof.
  unfold upstreamBoundHeaders, afterRequestHook. cbn [ServerJs.hooks onProxyReq].
  unfold ServerJs.onProxyReq, removeHeader, setHeader.
  change (JS.toLowerCase "X-Forwarded-By") with "x-forwarded-by".
  destruct (decide (k = "x-forwarded-by")) as [->|Hne].
  - rewrite lookup_insert_eq.
    assert ("x-forwarded-by" ∉ hopByHop) as Hnot.
    { unfold hopByHop. rewrite !not_elem_of_cons.
      repeat split; try discriminate. apply not_elem_of_nil. }
    by rewrite decide_False.
  - rewrite lookup_insert_ne by done.
    rewrite (lookup_delete_all JS.toLowerCase).
    by change (JS.toLowerCase <$> _) with hopByHop.
Qed.

(** C8, as amended.  Whenever the request hook of either program runs, it
    removes exactly the eight hop-by-hop headers connection, keep-alive,
    proxy-authenticate, proxy-authorization, te, trailers,
    transfer-encoding and upgrade, sets X-Forwarded-By to safe-proxy-site,
    and leaves every other header as it was.  It makes no exception for a
    request that is itself an upgrade request: [upgrade] and [connection]
    are removed like the others. *)
Theorem C8_request_hook (h : OutHeaders) (k : string) :
  upstreamBoundHeaders Part000.hooks h !! k
    = (if decide (k ∈ hopByHop) then None
       else if decide (k = "x-forwarded-by")
            then Some ("X-Forwarded-By", "safe-proxy-site")
            else h !! k)
  /\ upstreamBoundHeaders ServerJs.hooks h !! k
     = (if decide (k ∈ hopByHop) then None
        else if decide (k = "x-forwarded-by")
             then Some ("X-Forwarded-By", "safe-proxy-site")
             else h !! k).
Proof.
  split; [apply part000_request_hook | apply serverjs_request_hook].
Qed.

(** C8 as stated fails: on the headers of a WebSocket handshake the hook
    of either program removes [upgrade] and [connection]. *)
Lemma C8_counterexample :
  isUpgradeRequest Samples.upgradeHeaders = true
  /\ upstreamBoundHeaders Part000.hooks (outgoing Samples.upgradeHeaders)
       !! "upgrade" = None
  /\ upstreamBoundHeaders Part000.hooks (outgoing Samples.upgradeHeaders)
       !! "connection" = None
  /\ upstreamBoundHeaders ServerJs.hooks (outgoing Samples.upgradeHeaders)
       !! "upgrade" = None
  /\ upstreamBoundHeaders ServerJs.hooks (outgoing Samples.upgradeHeaders)
       !! "connection" = None.
Proof. repeat split; vm_compute; reflexivity. Qed.

(** C9, as amended.  In src/server.js the response hook removes [server]
    and [x-powered-by] from the upstream response headers and leaves every
    other header as it was; part_000 registers no response hook, so there
    the upstream response headers, [server] included, are relayed as they
    came.  In both programs the upstream-bound request carries
    X-Forwarded-By: safe-proxy-site. *)
Theorem C9_response_hook (h : Headers) (o : OutHeaders) :
  (exists h' : Headers,
     relayedHeaders ServerJs.hooks (Some h) = Some h'
     /\ forall k : string,
          h' !! k = if decide (k ∈ identifying) then None else h !! k)
  /\ relayedHeaders Part000.hooks (Some h) = Some h
  /\ upstreamBoundHeaders ServerJs.hooks o !! "x-forwarded-by"
     = Some ("X-Forwarded-By", "safe-proxy-site")
  /\ upstreamBoundHeaders Part000.hooks o !! "x-forwarded-by"
     = Some ("X-Forwarded-By", "safe-proxy-site").
Proof.
  split; [|split; [done|split]].
  - eexists. split; [reflexivity|]. intros k.
    rewrite (lookup_delete_all (fun name => name)).
    by rewrite list_fmap_id.
  - by rewrite serverjs_request_hook.
  - by rewrite part000_request_hook.
Qed.

(** C9 as stated fails on part_000: an upstream [server] header reaches the
    client. *)
Lemma C9_counterexample :
  relayedHeaders Part000.hooks (Some Samples.upstreamResponse)
    = Some Samples.upstreamResponse
  /\ Samples.upstreamResponse !! "server" = Some "nginx"
  /\ Samples.upstreamResponse !! "x-powered-by" = Some "PHP/8.2".
Proof. repeat split. Qed.

(* ===================================================================== *)
(** ** Worked scenarios *)
(* ===================================================================== *)

(** An allowlisted target is forwarded with the path and query of the
    target, and src/server.js strips [server] from the relayed response. *)
Example scenario_allowlisted_target :
  Part000.proxyHandler Samples.whatwg ["example.com"]
    (Samples.get (QString "https://example.com/foo?x=1"))
  = Forward "https://example.com" "/foo?x=1"
  /\ ServerJs.proxyHandler Samples.urlparse ["example.com"]
       "https://example.com"
       (Samples.get (QString "https://example.com/foo?x=1"))
     = Forward "https://example.com/foo?x=1" "/foo?x=1"
  /\ (relayedHeaders ServerJs.hooks (Some Samples.upstreamResponse)
       ≫= fun h => h !! "server") = None
  /\ (relayedHeaders ServerJs.hooks (Some Samples.upstreamResponse)
       ≫= fun h => h !! "content-type") = Some "text/html".
Proof. repeat split; vm_compute; reflexivity. Qed.

(** In src/server.js the host check sees the port: the loopback address is
    private, the loopback address with a port is not, and it is then left
    to the allowlist. *)
Example serverjs_host_check_sees_port :
  ServerJs.isPrivateHost "127.0.0.1" = true
  /\ ServerJs.isPrivateHost "127.0.0.1:8080" = false
  /\ ServerJs.allowedTarget Samples.urlparse ["example.com"]
       "http://127.0.0.1:8080/"
     = ServerJs.Failed "Host not in allowlist".
Proof. repeat split. Qed.

(* ===================================================================== *)
(** ** Startup configuration *)
(* ===================================================================== *)

Section StartupFacts.

Import Startup.

Lemma lowerChar_idem (c : ascii) :
  JS.lowerChar (JS.lowerChar c) = JS.lowerChar c.
Proof. by destruct c as [[] [] [] [] [] [] [] []]. Qed.

Lemma toLowerCase_idem (s : string) :
  JS.toLowerCase (JS.toLowerCase s) = JS.toLowerCase s.
Proof.
  induction s as [|c s IH]; [done|].
  cbn [JS.toLowerCase]. by rewrite lowerChar_idem, IH.
Qed.

Lemma toLowerCase_empty (s : string) : JS.toLowerCase s = "" <-> s = "".
Proof. by destruct s. Qed.

Lemma isSpace_lowerChar (c : ascii) : isSpace (JS.lowerChar c) = isSpace c.
Proof. by destruct c as [[] [] [] [] [] [] [] []]. Qed.

Lemma comma_lowerChar (c : ascii) :
  Ascii.eqb (JS.lowerChar c) "," = Ascii.eqb c ",".
Proof. by destruct c as [[] [] [] [] [] [] [] []]. Qed.

Lemma trimStart_toLowerCase (s : string) :
  trimStart (JS.toLowerCase s) = JS.toLowerCase (trimStart s).
Proof.
  induction s as [|c s IH]; [done|].
  cbn [JS.toLowerCase trimStart]. rewrite isSpace_lowerChar.
  by destruct (isSpace c).
Qed.

Lemma trimEnd_toLowerCase (s : string) :
  trimEnd (JS.toLowerCase s) = JS.toLowerCase (trimEnd s).
Proof.
  induction s as [|c s IH]; [done|].
  cbn [JS.toLowerCase trimEnd]. rewrite IH, isSpace_lowerChar.
  destruct (trimEnd s); cbn [JS.toLowerCase]; [by destruct (isSpace c)|done].
Qed.

Lemma trim_toLowerCase (s : string) :
  trim (JS.toLowerCase s) = JS.toLowerCase (trim s).
Proof. unfold trim. by rewrite trimStart_toLowerCase, trimEnd_toLowerCase. Qed.

Lemma trimEnd_idem (s : string) : trimEnd (trimEnd s) = trimEnd s.
Proof.
  induction s as [|c s IH]; [done|].
  cbn [trimEnd]. destruct (trimEnd s) as [|d t] eqn:Ht.
  - destruct (isSpace c) eqn:Hc; [done|]. cbn [trimEnd]. by rewrite Hc.
  - cbn [trimEnd]. cbn [trimEnd] in IH. by rewrite IH.
Qed.

Lemma trimStart_trimEnd (s : string) :
  trimStart (trimEnd (trimStart s)) = trimEnd (trimStart s).
Proof.
  induction s as [|c s IH]; [done|].
  cbn [trimStart]. destruct (isSpace c) eqn:Hc; [done|].
  cbn [trimEnd]. destruct (trimEnd s); rewrite ?Hc; cbn [trimStart];
    by rewrite Hc.
Qed.

Lemma trim_idem (s : string) : trim (trim s) = trim s.
Proof. unfold trim. by rewrite trimStart_trimEnd, trimEnd_idem. Qed.

Lemma allChars_trimStart (p : ascii -> bool) (s : string) :
  allChars p s = true -> allChars p (trimStart s) = true.
Proof.
  induction s as [|c s IH]; [done|]. intros H.
  cbn [trimStart]. destruct (isSpace c); [|done].
  apply andb_prop in H as [_ H]. auto.
Qed.

Lemma allChars_trimEnd (p : ascii -> bool) (s : string) :
  allChars p s = true -> allChars p (trimEnd s) = true.
Proof.
  induction s as [|c s IH]; [done|]. intros H.
  apply andb_prop in H as [Hc H]. specialize (IH H).
  cbn [trimEnd]. destruct (trimEnd s) as [|a t].
  - destruct (isSpace c); [done|]. simpl. by rewrite Hc.
  - change (p c && allChars p (String a t) = true). by rewrite Hc, IH.
Qed.

Lemma allChars_toLowerCase (p : ascii -> bool) (s : string) :
  (forall c, p (JS.lowerChar c) = p c) ->
  allChars p (JS.toLowerCase s) = allChars p s.
Proof.
  intros Hp. induction s as [|c s IH]; [done|].
  cbn [JS.toLowerCase allChars]. by rewrite Hp, IH.
Qed.

(** The pieces of [split] do not contain the separator. *)
Lemma split_pieces (sep : ascii) (s : string) :
  Forall (fun w => allChars (fun c => negb (Ascii.eqb c sep)) w = true)
    (split sep s).
Proof.
  induction s as [|c s IH]; cbn [split].
  - by constructor.
  - destruct (Ascii.eqb c sep) eqn:Hc; [by constructor|].
    destruct (split sep s) as [|w ws]; inversion IH; subst;
      constructor; cbn [allChars]; try done; by rewrite Hc.
Qed.

(** The pieces of [split] are made of characters of the string. *)
Lemma split_allChars (p : ascii -> bool) (sep : ascii) (s : string) :
  allChars p s = true ->
  Forall (fun w => allChars p w = true) (split sep s).
Proof.
  induction s as [|c s IH]; cbn [split allChars].
  - by constructor.
  - intros H. apply andb_prop in H as [Hc Hs]. specialize (IH Hs).
    destruct (Ascii.eqb c sep); [by constructor|].
    destruct (split sep s) as [|w ws]; inversion IH; subst;
      constructor; cbn [allChars]; try done; by rewrite Hc.
Qed.

Lemma ascii_lowerChar (c : ascii) :
  Nat.ltb (nat_of_ascii (JS.lowerChar c)) 128 = Nat.ltb (nat_of_ascii c) 128.
Proof. by destruct c as [[] [] [] [] [] [] [] []]. Qed.

Lemma split_not_nil (sep : ascii) (s : string) : split sep s <> [].
Proof.
  induction s as [|c s IH]; cbn [split]; [done|].
  destruct (Ascii.eqb c sep); [done|]. by destruct (split sep s).
Qed.

(** A string without the separator is one piece. *)
Lemma split_one (sep : ascii) (w : string) :
  allChars (fun c => negb (Ascii.eqb c sep)) w = true ->
  split sep w = [w].
Proof.
  induction w as [|c w IH]; [done|]. intros H.
  apply andb_prop in H as [Hc H]. apply negb_true_iff in Hc.
  cbn [split]. by rewrite Hc, (IH H).
Qed.

Lemma split_app (sep : ascii) (w rest : string) :
  allChars (fun c => negb (Ascii.eqb c sep)) w = true ->
  split sep (w +:+ String sep rest) = w :: split sep rest.
Proof.
  induction w as [|c w IH]; intros H.
  - change ("" +:+ String sep rest) with (String sep rest).
    cbn [split]. by rewrite Ascii.eqb_refl.
  - apply andb_prop in H as [Hc H]. apply negb_true_iff in Hc.
    change (String c w +:+ String sep rest)
      with (String c (w +:+ String sep rest)).
    cbn [split]. by rewrite Hc, (IH H).
Qed.

Lemma split_join (l : list string) :
  l <> [] ->
  Forall (fun w => allChars (fun c => negb (Ascii.eqb c ",")) w = true) l ->
  split "," (join "," l) = l.
Proof.
  induction l as [|w l IH]; [done|]. intros _ Hall.
  inversion Hall as [|? ? Hw Hl]; subst.
  destruct l as [|w' l].
  - by apply split_one.
  - change (join "," (w :: w' :: l))
      with (w +:+ String "," (join "," (w' :: l))).
    rewrite split_app by done. by rewrite IH.
Qed.

Lemma loadAllowlist_In (env : option string) (d : string) :
  In d (loadAllowlist env) <->
  d <> "" /\ exists w, In w (split "," (default "" env))
                       /\ d = JS.toLowerCase (trim w).
Proof.
  unfold loadAllowlist. rewrite filter_In, in_map_iff, truthy_true.
  split.
  - intros [(w & <- & Hw) Hne]. split; [done|]. by exists w.
  - intros [Hne (w & Hw & ->)]. split; [|done]. by exists w.
Qed.

Lemma loadedEntry_of_piece (w : string) :
  allChars (fun c => negb (Ascii.eqb c ",")) w = true ->
  JS.toLowerCase (trim w) <> "" ->
  loadedEntry (JS.toLowerCase (trim w)).
Proof.
  intros Hw Hne. repeat split.
  - done.
  - apply toLowerCase_idem.
  - by rewrite trim_toLowerCase, trim_idem.
  - rewrite allChars_toLowerCase.
    + unfold trim. by apply allChars_trimEnd, allChars_trimStart.
    + intros c. by rewrite comma_lowerChar.
Qed.

Lemma loadAllowlist_fixed (l : list string) :
  Forall loadedEntry l ->
  List.filter JS.truthy (List.map (fun s => JS.toLowerCase (trim s)) l) = l.
Proof.
  induction 1 as [|d l (Hne & Hlow & Htrim & _) _ IH]; [done|].
  cbn [List.map List.filter]. rewrite Htrim, Hlow.
  apply truthy_true in Hne. by rewrite Hne, IH.
Qed.

End StartupFacts.

(** X1.  When the value of the environment variable is ASCII text, every
    entry of the allowlist loaded at startup is ASCII text too, non-empty,
    in lower case, free of surrounding white space and free of commas. *)
Theorem X1_loaded_allowlist_entries (env : option string) (d : string) :
  asciiOnly (default "" env) = true ->
  In d (Startup.loadAllowlist env) ->
  loadedEntry d /\ asciiOnly d = true.
Proof.
  intros Hascii Hd. apply loadAllowlist_In in Hd as [Hne (w & Hw & ->)].
  split.
  - apply loadedEntry_of_piece; [|done].
    pose proof (split_pieces "," (default "" env)) as Hall.
    rewrite List.Forall_forall in Hall. by apply Hall.
  - pose proof (split_allChars _ "," _ Hascii) as Hall.
    rewrite List.Forall_forall in Hall. specialize (Hall w Hw).
    unfold asciiOnly. rewrite allChars_toLowerCase.
    + unfold Startup.trim. by apply allChars_trimEnd, allChars_trimStart.
    + apply ascii_lowerChar.
Qed.

Lemma X1_loaded_allowlist_entries_witness :
  In "example.com" (Startup.loadAllowlist (Some " Example.COM , ,api.github.com"))
  /\ loadedEntry "example.com" /\ asciiOnly "example.com" = true.
Proof.
  assert (In "example.com"
            (Startup.loadAllowlist (Some " Example.COM , ,api.github.com")))
    as Hin by (vm_compute; tauto).
  split; [exact Hin|].
  exact (X1_loaded_allowlist_entries
           (Some " Example.COM , ,api.github.com") _ eq_refl Hin).
Defined.

(** X2.  Loading is the inverse of writing the list down: when every entry
    is already as the loader leaves entries, and the entries joined by
    commas are ASCII text, the allowlist loaded from that text is the list
    itself (and the empty list for the empty string). *)
Theorem X2_load_joined_entries (l : list string) :
  asciiOnly (join "," l) = true ->
  Forall loadedEntry l ->
  Startup.loadAllowlist (Some (join "," l)) = l.
Proof.
  intros _ Hl. unfold Startup.loadAllowlist.
  change (default "" (Some (join "," l))) with (join "," l).
  destruct l as [|d l]; [done|].
  rewrite split_join.
  - by apply loadAllowlist_fixed.
  - done.
  - eapply Forall_impl; [exact Hl|]. by intros w (_ & _ & _ & Hw).
Qed.

Lemma X2_load_joined_entries_witness :
  Forall loadedEntry ["example.com"; "api.github.com"]
  /\ Startup.loadAllowlist (Some "example.com,api.github.com")
     = ["example.com"; "api.github.com"].
Proof.
  assert (Forall loadedEntry ["example.com"; "api.github.com"]) as Hl.
  { repeat constructor; discriminate. }
  split; [exact Hl|].
  exact (X2_load_joined_entries ["example.com"; "api.github.com"] eq_refl Hl).
Defined.

(** X3.  For an ASCII value of the variable, the program refuses to start
    exactly when no piece of the value, cut at the commas, is anything but
    white space; in particular when the variable is unset or empty.  When
    it starts, the allowlist is not empty. *)
Theorem X3_startup_exit (env : option string) :
  asciiOnly (default "" env) = true ->
  (Startup.startup env = None <->
   forall w, In w (Startup.split "," (default "" env)) -> Startup.trim w = "")
  /\ (forall l, Startup.startup env = Some l ->
        l = Startup.loadAllowlist env /\ l <> []).
Proof.
  intros _. unfold Startup.startup. split.
  - destruct (Startup.loadAllowlist env) as [|d l] eqn:Hload; cbn.
    + split; [intros _|done]. intros w Hw.
      destruct (Startup.trim w) as [|c t] eqn:Ht; [done|].
      assert (In (JS.toLowerCase (Startup.trim w)) (Startup.loadAllowlist env))
        as Hin.
      { apply loadAllowlist_In. split; [by rewrite Ht|]. by exists w. }
      by rewrite Hload in Hin.
    + split; [done|]. intros Hblank.
      assert (In d (Startup.loadAllowlist env)) as Hin
        by (rewrite Hload; by left).
      apply loadAllowlist_In in Hin as [Hne (w & Hw & ->)].
      by rewrite (Hblank w Hw) in Hne.
  - intros l. destruct (Startup.loadAllowlist env) as [|d l']; cbn; [done|].
    by intros [= <-].
Qed.

Lemma X3_startup_exit_witness :
  Startup.startup None = None
  /\ Startup.startup (Some " , ") = None
  /\ Startup.startup (Some "example.com") = Some ["example.com"].
Proof.
  split; [|split].
  - apply (proj1 (X3_startup_exit None eq_refl)).
    intros w [<-|[]]. reflexivity.
  - apply (proj1 (X3_startup_exit (Some " , ") eq_refl)).
    intros w [<-|[<-|[]]]; reflexivity.
  - destruct (proj2 (X3_startup_exit (Some "example.com") eq_refl)
                ["example.com"])
      as [-> _]; reflexivity.
Defined.

(* ===================================================================== *)
(** ** The shape of a dotted-decimal host *)
(* ===================================================================== *)

Section ShapeFacts.

Import RegExp.

Lemma append_assoc (a b c : string) : (a +:+ b) +:+ c = a +:+ b +:+ c.
Proof.
  induction a as [|x a IH]; [done|].
  change (String x ((a +:+ b) +:+ c) = String x (a +:+ b +:+ c)).
  by rewrite IH.
Qed.

Lemma append_empty_r (a : string) : a +:+ "" = a.
Proof.
  induction a as [|x a IH]; [done|].
  change (String x (a +:+ "") = String x a). by rewrite IH.
Qed.

Lemma lang_cat_inv (r s : regex) (w : string) :
  lang (Cat r s) w <-> exists u v, w = u +:+ v /\ lang r u /\ lang s v.
Proof.
  split.
  - intros H. inversion H; subst. by eexists _, _.
  - intros (u & v & -> & Hu & Hv). by constructor.
Qed.

Lemma lang_alt_inv (r s : regex) (w : string) :
  lang (Alt r s) w <-> lang r w \/ lang s w.
Proof.
  split.
  - intros H. inversion H; subst; auto.
  - intros [H|H]; [by apply lang_alt_l|by apply lang_alt_r].
Qed.

Lemma lang_class_inv (p : ascii -> bool) (w : string) :
  lang (Class p) w <-> exists c, w = String c "" /\ p c = true.
Proof.
  split.
  - intros H. inversion H; subst. by eexists.
  - intros (c & -> & Hc). by constructor.
Qed.

Lemma lang_eps_inv (w : string) : lang Eps w <-> w = "".
Proof.
  split.
  - intros H. by inversion H.
  - intros ->. constructor.
Qed.

Lemma lang_opt_inv (r : regex) (w : string) :
  lang (opt r) w <-> w = "" \/ lang r w.
Proof. unfold opt. by rewrite lang_alt_inv, lang_eps_inv. Qed.

Lemma lang_chr_inv (c : ascii) (w : string) :
  lang (chr c) w <-> w = String c "".
Proof.
  unfold chr. rewrite lang_class_inv. split.
  - intros (d & -> & Hd). by apply Ascii.eqb_eq in Hd as ->.
  - intros ->. exists c. split; [done|apply Ascii.eqb_refl].
Qed.

Lemma lang_lit_inv (p w : string) : lang (lit p) w <-> w = p.
Proof.
  revert w. induction p as [|c p IH]; intros w; cbn [lit].
  - apply lang_eps_inv.
  - rewrite lang_cat_inv. split.
    + intros (u & v & -> & Hu & Hv).
      apply lang_chr_inv in Hu as ->. by apply IH in Hv as ->.
    + intros ->. exists (String c ""), p.
      split; [done|]. split; [by apply lang_chr_inv|by apply IH].
Qed.

Lemma lang_anything (w : string) : lang anything w.
Proof.
  unfold anything. induction w as [|c w IH]; [constructor|].
  apply (lang_star_cons _ (String c "") w); [by constructor|done].
Qed.

(** A pattern anchored at the start matches when some prefix of the string
    is in its language. *)
Lemma testPrefix_spec (r : regex) (s : string) :
  testPrefix r s = true <-> exists u v, s = u +:+ v /\ lang r u.
Proof.
  unfold testPrefix. rewrite matches_lang, lang_cat_inv. split.
  - intros (u & v & -> & Hu & _). by exists u, v.
  - intros (u & v & -> & Hu). exists u, v. auto using lang_anything.
Qed.

Lemma testPrefix_lit (p s : string) :
  testPrefix (lit p) s = JS.startsWith s p.
Proof.
  apply eq_true_iff_eq. rewrite testPrefix_spec, startsWith_spec. split.
  - intros (u & v & -> & Hu). apply lang_lit_inv in Hu as ->. by exists v.
  - intros (t & ->). exists p, t. split; [done|by apply lang_lit_inv].
Qed.

Lemma lang_digits (w : string) :
  lang (rep1to3 digit) w <-> octet w = true.
Proof.
  unfold rep1to3, digit. rewrite lang_cat_inv. split.
  - intros (u & v & -> & Hu & Hv).
    apply lang_class_inv in Hu as (c1 & -> & H1).
    apply lang_cat_inv in Hv as (v1 & v2 & -> & Hv1 & Hv2).
    apply lang_opt_inv in Hv1 as [->|Hv1];
      apply lang_opt_inv in Hv2 as [->|Hv2];
      try apply lang_class_inv in Hv1 as (c2 & -> & H2);
      try apply lang_class_inv in Hv2 as (c3 & -> & H3);
      unfold octet; cbv - [JS.isDigit]; rewrite ?H1, ?H2, ?H3; done.
  - unfold octet. intros H.
    destruct w as [|c1 [|c2 [|c3 [|c4 w]]]]; cbn in H; try done.
    + rewrite andb_true_r in H.
      exists (String c1 ""), "". split; [done|]. split.
      * apply lang_class_inv. by exists c1.
      * apply (lang_cat _ _ "" ""); apply lang_opt_inv; by left.
    + rewrite andb_true_r in H. apply andb_prop in H as [H1 H2].
      exists (String c1 ""), (String c2 ""). split; [done|]. split.
      * apply lang_class_inv. by exists c1.
      * apply (lang_cat _ _ (String c2 "") ""); apply lang_opt_inv;
          [right|by left]. apply lang_class_inv. by exists c2.
    + rewrite andb_true_r in H. apply andb_prop in H as [H1 H].
      apply andb_prop in H as [H2 H3].
      exists (String c1 ""), (String c2 (String c3 "")).
      split; [done|]. split.
      * apply lang_class_inv. by exists c1.
      * apply (lang_cat _ _ (String c2 "") (String c3 ""));
          apply lang_opt_inv; right; apply lang_class_inv; by eexists.
Qed.

Lemma part000_ipv4_dottedQuad (s : string) :
  matches Part000.ipv4 s = true <-> dottedQuad s.
Proof.
  rewrite matches_lang. unfold Part000.ipv4, times3, dottedQuad.
  rewrite lang_cat_inv. split.
  - intros (abc & d & -> & Habc & Hd).
    apply lang_cat_inv in Habc as (a' & bc & -> & Ha & Hbc).
    apply lang_cat_inv in Hbc as (b' & c' & -> & Hb & Hc).
    apply lang_cat_inv in Ha as (a & ? & -> & Ha & ->%lang_chr_inv).
    apply lang_cat_inv in Hb as (b & ? & -> & Hb & ->%lang_chr_inv).
    apply lang_cat_inv in Hc as (c & ? & -> & Hc & ->%lang_chr_inv).
    exists a, b, c, d. rewrite !lang_digits in *.
    split; [|done]. by rewrite !append_assoc.
  - intros (a & b & c & d & -> & Ha & Hb & Hc & Hd).
    rewrite <- lang_digits in Ha, Hb, Hc, Hd.
    exists ((a +:+ ".") +:+ (b +:+ ".") +:+ (c +:+ ".")), d.
    split; [by rewrite !append_assoc|]. split; [|done].
    repeat (apply lang_cat; [apply lang_cat; [done|by apply lang_chr_inv]|]).
    apply lang_cat; [done|by apply lang_chr_inv].
Qed.

Lemma serverjs_ipv4_dottedQuad (s : string) :
  matches ServerJs.ipv4 s = true <-> dottedQuad s.
Proof.
  rewrite matches_lang. unfold ServerJs.ipv4, times3, dottedQuad.
  rewrite lang_cat_inv. split.
  - intros (a & bcd & -> & Ha & Hbcd).
    apply lang_cat_inv in Hbcd as (b' & cd & -> & Hb & Hcd).
    apply lang_cat_inv in Hcd as (c' & d' & -> & Hc & Hd).
    apply lang_cat_inv in Hb as (? & b & -> & ->%lang_chr_inv & Hb).
    apply lang_cat_inv in Hc as (? & c & -> & ->%lang_chr_inv & Hc).
    apply lang_cat_inv in Hd as (? & d & -> & ->%lang_chr_inv & Hd).
    exists a, b, c, d. rewrite !lang_digits in *.
    split; [|done]. by rewrite !append_assoc.
  - intros (a & b & c & d & -> & Ha & Hb & Hc & Hd).
    rewrite <- lang_digits in Ha, Hb, Hc, Hd.
    exists a, (("." +:+ b) +:+ ("." +:+ c) +:+ ("." +:+ d)).
    split; [by rewrite !append_assoc|]. split; [done|].
    repeat (apply lang_cat; [apply lang_cat; [by apply lang_chr_inv|done]|]).
    apply lang_cat; [by apply lang_chr_inv|done].
Qed.

End ShapeFacts.

(** X4.  The IPv4 patterns of the two programs, written differently,
    accept the same strings: exactly four groups of one to three decimal
    digits separated by dots, with no bound on the value of a group. *)
Theorem X4_ipv4_patterns (s : string) :
  (RegExp.matches Part000.ipv4 s = true <-> dottedQuad s)
  /\ (RegExp.matches ServerJs.ipv4 s = true <-> dottedQuad s).
Proof.
  split; [apply part000_ipv4_dottedQuad | apply serverjs_ipv4_dottedQuad].
Qed.

(* ===================================================================== *)
(** ** More on the validator and the handler of part_000 *)
(* ===================================================================== *)

Section Part000More.

Import Part000.

Variable parseURL : string -> option URL.
Variable ALLOWLIST : list string.

Local Abbreviation validate := (parseAndValidateTarget parseURL ALLOWLIST).

Lemma validate_accepted_iff (target : string) (u : URL) :
  validate target = Accepted u <->
  target <> "" /\ parseURL target = Some u
  /\ In (JS.toLowerCase (protocol u)) allowedProtocols
  /\ isPrivateOrIpLiteral (JS.toLowerCase (hostname u)) = false
  /\ exists d, In d ALLOWLIST /\ matchesEntry (JS.toLowerCase (hostname u)) d.
Proof.
  rewrite <- allowlisted_spec. split; [apply validate_accepted|].
  intros (Hne & Hp & Hs & Hpriv & Hal).
  rewrite (validate_parsed _ _ _ _ Hne Hp), Hpriv, Hal.
  apply arrayIncludes_In in Hs. by rewrite Hs.
Qed.

(** The verdict is an acceptance or one of the five reasons. *)
Lemma validate_cases (target : string) :
  (exists r, validate target = Rejected (reasonText r))
  \/ exists u, validate target = Accepted u.
Proof.
  unfold parseAndValidateTarget.
  destruct (negb (JS.truthy target)); [left; by eexists|].
  destruct (parseURL target) as [u|]; [|left; by eexists].
  destruct (negb (JS.arrayIncludes _ _)); [left; by eexists|].
  destruct (isPrivateOrIpLiteral _); [left; by eexists|].
  destruct (negb (allowlisted _ _)); [left; by eexists|].
  right. by eexists.
Qed.

End Part000More.

Lemma isPrivateOrIpLiteral_localhost (h : string) :
  JS.toLowerCase h = "localhost"
    \/ (exists p, JS.toLowerCase h = p +:+ ".localhost") ->
  Part000.isPrivateOrIpLiteral h = true.
Proof.
  intros H. unfold Part000.isPrivateOrIpLiteral.
  destruct (negb (JS.truthy h)); [done|].
  destruct (RegExp.matches Part000.ipv4 h); [done|].
  destruct (JS.includes h ":"); [done|].
  destruct H as [->|H]; [done|].
  apply endsWith_spec in H. rewrite H. by rewrite orb_true_r.
Qed.

(** X5.  [parseAndValidateTarget] accepts a target exactly when it is not
    empty, parses, has a scheme among http, https, ws, wss, has a hostname
    that the host check lets through, and its lower-cased hostname equals
    an allowlist entry or ends with a dot followed by one; the accepted
    descriptor is then the parsed URL itself. *)
Theorem X5_accepted_exactly
  (parseURL : string -> option Part000.URL) (ALLOWLIST : list string)
  (target : string) (u : Part000.URL) :
  Part000.parseAndValidateTarget parseURL ALLOWLIST target = Part000.Accepted u
  <->
  target <> "" /\ parseURL target = Some u
  /\ In (JS.toLowerCase (Part000.protocol u)) Part000.allowedProtocols
  /\ Part000.isPrivateOrIpLiteral (JS.toLowerCase (Part000.hostname u)) = false
  /\ exists d, In d ALLOWLIST
               /\ matchesEntry (JS.toLowerCase (Part000.hostname u)) d.
Proof.
  rewrite <- allowlisted_spec. split; [apply validate_accepted|].
  intros (Hne & Hp & Hs & Hpriv & Hal).
  rewrite (validate_parsed _ _ _ _ Hne Hp), Hpriv, Hal.
  apply arrayIncludes_In in Hs. by rewrite Hs.
Qed.

(** X6.  The host check of part_000 lets a hostname through exactly when
    it is not empty, is not four dot-separated groups of one to three
    digits, contains no colon, and is, in lower case, neither [localhost]
    nor a name ending in [.localhost]. *)
Theorem X6_host_check_exactly (h : string) :
  Part000.isPrivateOrIpLiteral h = false <->
  h <> "" /\ ~ dottedQuad h
  /\ ~ (exists p q, h = p +:+ ":" +:+ q)
  /\ JS.toLowerCase h <> "localhost"
  /\ ~ (exists p, JS.toLowerCase h = p +:+ ".localhost").
Proof.
  rewrite <- part000_ipv4_dottedQuad, <- includes_spec, <- endsWith_spec,
    <- truthy_true, <- String.eqb_neq.
  unfold Part000.isPrivateOrIpLiteral.
  destruct (JS.truthy h), (RegExp.matches Part000.ipv4 h),
    (JS.includes h ":"), (String.eqb (JS.toLowerCase h) "localhost"),
    (JS.endsWith (JS.toLowerCase h) ".localhost"); cbn; intuition congruence.
Qed.

(** X7.  A target with an allowed scheme whose hostname is [localhost] or
    ends in [.localhost], in any letter case, is rejected with the
    PrivateOrLiteralHost reason, also when the allowlist holds that
    name. *)
Theorem X7_localhost_rejected
  (parseURL : string -> option Part000.URL) (ALLOWLIST : list string)
  (target : string) (u : Part000.URL) :
  target <> "" ->
  parseURL target = Some u ->
  In (JS.toLowerCase (Part000.protocol u)) Part000.allowedProtocols ->
  JS.toLowerCase (Part000.hostname u) = "localhost"
    \/ (exists p, JS.toLowerCase (Part000.hostname u) = p +:+ ".localhost") ->
  Part000.parseAndValidateTarget parseURL ALLOWLIST target
    = Part000.Rejected (Part000.reasonText Part000.PrivateOrLiteralHost).
Proof.
  intros Hne Hp Hs Hlocal.
  rewrite (validate_parsed _ _ _ _ Hne Hp).
  apply arrayIncludes_In in Hs. rewrite Hs.
  rewrite isPrivateOrIpLiteral_localhost; [done|].
  by rewrite toLowerCase_idem.
Qed.

Lemma X7_localhost_rejected_witness :
  Part000.parseAndValidateTarget MoreSamples.whatwg
    ["localhost"; "api.localhost"] "http://api.localhost:3000/"
  = Part000.Rejected "Private hosts and IP literals are blocked".
Proof.
  apply (X7_localhost_rejected MoreSamples.whatwg
           ["localhost"; "api.localhost"] "http://api.localhost:3000/"
           (Part000.mkURL "http:" "api.localhost" "http://api.localhost:3000"
              "/" "")).
  - discriminate.
  - reflexivity.
  - simpl. tauto.
  - right. by exists "api".
Defined.

(** X8.  Enlarging the allowlist never turns an accepted target into a
    rejected one: a target accepted under an allowlist is accepted, with
    the same descriptor, under every allowlist that holds its entries. *)
Theorem X8_allowlist_monotone
  (parseURL : string -> option Part000.URL) (small large : list string)
  (target : string) (u : Part000.URL) :
  (forall d, In d small -> In d large) ->
  Part000.parseAndValidateTarget parseURL small target = Part000.Accepted u ->
  Part000.parseAndValidateTarget parseURL large target = Part000.Accepted u.
Proof.
  intros Hsub Hv.
  apply validate_accepted_iff in Hv as (Hne & Hp & Hs & Hpriv & d & Hd & Hm).
  apply validate_accepted_iff. repeat split; try done.
  exists d. auto.
Qed.

Lemma X8_allowlist_monotone_witness :
  Part000.parseAndValidateTarget Samples.whatwg ["example.com"]
    "https://api.example.com/v1"
  = Part000.parseAndValidateTarget Samples.whatwg ["github.com"; "example.com"]
      "https://api.example.com/v1".
Proof.
  symmetry.
  apply (X8_allowlist_monotone Samples.whatwg ["example.com"]
           ["github.com"; "example.com"]).
  - intros d [<-|[]]. simpl. tauto.
  - reflexivity.
Defined.

(** X9.  The allowlist decides only between acceptance and the
    DomainNotAllowlisted reason: a rejection for any other reason is the
    same under every allowlist. *)
Theorem X9_other_reasons_ignore_allowlist
  (parseURL : string -> option Part000.URL) (list1 list2 : list string)
  (target reason : string) :
  Part000.parseAndValidateTarget parseURL list1 target
    = Part000.Rejected reason ->
  reason <> Part000.reasonText Part000.DomainNotAllowlisted ->
  Part000.parseAndValidateTarget parseURL list2 target
    = Part000.Rejected reason.
Proof.
  unfold Part000.parseAndValidateTarget.
  destruct (negb (JS.truthy target)); [done|].
  destruct (parseURL target) as [u|]; [|done].
  destruct (negb (JS.arrayIncludes _ _)); [done|].
  destruct (Part000.isPrivateOrIpLiteral _); [done|].
  destruct (negb (Part000.allowlisted list1 _)); [|done].
  intros [= <-] Hne. done.
Qed.

Lemma X9_other_reasons_ignore_allowlist_witness :
  Part000.parseAndValidateTarget Samples.whatwg ["127.0.0.1"]
    "http://127.0.0.1:8080/"
  = Part000.Rejected "Private hosts and IP literals are blocked".
Proof.
  apply (X9_other_reasons_ignore_allowlist Samples.whatwg ["example.com"]
           ["127.0.0.1"]).
  - reflexivity.
  - discriminate.
Defined.

(** X10.  Allowlisting a name allowlists every name below it, at any
    depth: when a hostname passes the allowlist test, so does every
    hostname made of a prefix, a dot and that hostname. *)
Theorem X10_subdomains_allowlisted
  (ALLOWLIST : list string) (h p : string) :
  Part000.allowlisted ALLOWLIST h = true ->
  Part000.allowlisted ALLOWLIST (p +:+ "." +:+ h) = true.
Proof.
  rewrite !allowlisted_spec. intros (d & Hd & Hm). exists d.
  split; [done|]. right. destruct Hm as [->|[q ->]].
  - by exists p.
  - exists (p +:+ "." +:+ q). by rewrite !append_assoc.
Qed.

Lemma X10_subdomains_allowlisted_witness :
  Part000.allowlisted ["example.com"] "v2.api.example.com" = true.
Proof.
  apply (X10_subdomains_allowlisted ["example.com"] "api.example.com" "v2").
  reflexivity.
Defined.

(** X11.  For a request whose [url] parameter is absent, a string or an
    array of strings, whatever its method or headers, the code of the
    [/proxy] handler of part_000 and of its [router] and [pathRewrite] ends
    in one of two ways.  Either the handler answers 400 with one of the
    five reasons; or [router] returns the origin of the parsed target and
    [pathRewrite] returns the path and query of that same parsed target,
    and then the target has an allowed scheme and a hostname that passes
    the host check and matches an allowlist entry.  What the proxy library
    sends upstream from these two values is not part of the statement. *)
Theorem X11_handler_outcomes
  (parseURL : string -> option Part000.URL) (ALLOWLIST : list string)
  (req : Request) :
  (exists r : Part000.Reason,
     Part000.proxyHandler parseURL ALLOWLIST req
     = Respond 400 (Json [("error", Part000.reasonText r)]))
  \/ (exists (u : Part000.URL) (d : string),
        parseURL (toStr (orEmpty (query_url req))) = Some u
        /\ Part000.proxyHandler parseURL ALLOWLIST req
           = Forward (Part000.origin u)
               (Part000.pathname u +:+ Part000.search u)
        /\ In (JS.toLowerCase (Part000.protocol u)) Part000.allowedProtocols
        /\ Part000.isPrivateOrIpLiteral
             (JS.toLowerCase (Part000.hostname u)) = false
        /\ In d ALLOWLIST
        /\ matchesEntry (JS.toLowerCase (Part000.hostname u)) d).
Proof.
  destruct (validate_cases parseURL ALLOWLIST
              (toStr (orEmpty (query_url req)))) as [[r Hr]|[u Hu]].
  - left. exists r. by apply handler_rejects.
  - right.
    pose proof (handler_forwards _ _ _ _ Hu) as Hf.
    apply validate_accepted_iff in Hu as (_ & Hp & Hs & Hpriv & d & Hd & Hm).
    by exists u, d.
Qed.

(* ===================================================================== *)
(** ** More on the validator and the handler of src/server.js *)
(* ===================================================================== *)

Lemma query_or_empty (q : string) : (if JS.truthy q then q else "") = q.
Proof. by destruct q. Qed.

Section ServerJsMore.

Import ServerJs.

Variable parseURL : string -> option URL.
Variable ALLOWLIST : list string.
Variable DEFAULT_TARGET : string.

Local Abbreviation check := (allowedTarget parseURL ALLOWLIST).
Local Abbreviation handler := (proxyHandler parseURL ALLOWLIST DEFAULT_TARGET).

Lemma allowedTarget_ok_iff (urlStr url : string) :
  check urlStr = Ok url <->
  exists u, parseURL urlStr = Some u /\ url = href u
    /\ isPrivateHost (JS.toLowerCase (host u)) = false
    /\ exists d, In d ALLOWLIST
         /\ matchesEntry (JS.splitHead ":" (JS.toLowerCase (host u))) d.
Proof.
  split.
  - unfold allowedTarget.
    destruct (parseURL urlStr) as [u|] eqn:Hp; [|done].
    destruct (negb (JS.truthy _)); [done|].
    destruct (isPrivateHost _) eqn:Hpriv; [done|].
    destruct (existsb _ ALLOWLIST) eqn:Hex; [|done].
    intros [= <-]. exists u. repeat split; try done.
    by apply existsb_matchesEntry.
  - intros (u & Hp & -> & Hpriv & Hm).
    rewrite (allowedTarget_parsed _ _ _ _ Hp Hpriv).
    apply existsb_matchesEntry in Hm. by rewrite Hm.
Qed.

End ServerJsMore.

Section SplitHeadFacts.

Lemma includes_char (c a : ascii) (s : string) :
  JS.includes (String a s) (String c "")
  = Ascii.eqb c a || JS.includes s (String c "").
Proof.
  rewrite includes_unfold. cbn [JS.startsWith]. by rewrite andb_true_r.
Qed.

Lemma splitHead_no_sep (sep : ascii) (s : string) :
  JS.includes (JS.splitHead sep s) (String sep "") = false.
Proof.
  induction s as [|c s IH]; [done|].
  cbn [JS.splitHead]. destruct (Ascii.eqb c sep) eqn:Hc; [done|].
  rewrite includes_char, IH, orb_false_r.
  rewrite Ascii.eqb_sym. exact Hc.
Qed.

Lemma splitHead_whole (sep : ascii) (h : string) :
  JS.includes h (String sep "") = false -> JS.splitHead sep h = h.
Proof.
  induction h as [|c h IH]; [done|].
  rewrite includes_char. intros H. apply orb_false_elim in H as [Hc Hh].
  cbn [JS.splitHead]. rewrite Ascii.eqb_sym, Hc. by rewrite IH.
Qed.

Lemma splitHead_app (sep : ascii) (h rest : string) :
  JS.includes h (String sep "") = false ->
  JS.splitHead sep (h +:+ String sep rest) = h.
Proof.
  induction h as [|c h IH].
  - intros _. change ("" +:+ String sep rest) with (String sep rest).
    cbn [JS.splitHead]. by rewrite Ascii.eqb_refl.
  - rewrite includes_char. intros H. apply orb_false_elim in H as [Hc Hh].
    change (String c h +:+ String sep rest)
      with (String c (h +:+ String sep rest)).
    cbn [JS.splitHead]. rewrite Ascii.eqb_sym, Hc. by rewrite IH.
Qed.

End SplitHeadFacts.

(** X12.  [allowedTarget] of src/server.js accepts a string exactly when
    it parses, its lower-cased host passes [isPrivateHost], and the host up
    to its first colon equals an allowlist entry or ends with a dot
    followed by one; it then returns the parsed URL written back as a
    string.  The scheme plays no part. *)
Theorem X12_allowedTarget_exactly
  (parseURL : string -> option ServerJs.URL) (ALLOWLIST : list string)
  (urlStr url : string) :
  ServerJs.allowedTarget parseURL ALLOWLIST urlStr = ServerJs.Ok url <->
  exists u, parseURL urlStr = Some u /\ url = ServerJs.href u
    /\ ServerJs.isPrivateHost (JS.toLowerCase (ServerJs.host u)) = false
    /\ exists d, In d ALLOWLIST
         /\ matchesEntry
              (JS.splitHead ":" (JS.toLowerCase (ServerJs.host u))) d.
Proof.
  split.
  - unfold ServerJs.allowedTarget.
    destruct (parseURL urlStr) as [u|] eqn:Hp; [|done].
    destruct (negb (JS.truthy _)); [done|].
    destruct (ServerJs.isPrivateHost _) eqn:Hpriv; [done|].
    destruct (existsb _ ALLOWLIST) eqn:Hex; [|done].
    intros [= <-]. exists u. repeat split; try done.
    by apply existsb_matchesEntry.
  - intros (u & Hp & -> & Hpriv & Hm).
    rewrite (allowedTarget_parsed _ _ _ _ Hp Hpriv).
    apply existsb_matchesEntry in Hm. by rewrite Hm.
Qed.

(** X13.  For a request whose [url] parameter is absent, a string or an
    array of strings, the code of the [/proxy] handler of src/server.js and
    of its [router] and [pathRewrite] ends in one of four ways and no
    other: the handler answers 405 for a method outside the allowed ones;
    it answers 400 with the reason [allowedTarget] gave, one of "Bad URL",
    "No host", "Private/invalid host" and "Host not in allowlist"; with no
    [url] parameter, [router] returns [DEFAULT_TARGET] and [pathRewrite]
    the request path; or, when [allowedTarget] accepts the parameter,
    [router] returns the parameter as it was sent and [pathRewrite] the
    path and query of its parse.  In particular [pathRewrite] never throws
    behind the pre-check.  What the proxy library sends upstream from the
    two returned values is not part of the statement. *)
Theorem X13_serverjs_handler_outcomes
  (parseURL : string -> option ServerJs.URL) (ALLOWLIST : list string)
  (DEFAULT_TARGET : string) (req : Request) :
  (~ In (method req) ServerJs.allowedMethods
   /\ ServerJs.proxyHandler parseURL ALLOWLIST DEFAULT_TARGET req
      = Respond 405 (Text "Method Not Allowed"))
  \/ (exists reason,
        ServerJs.allowedTarget parseURL ALLOWLIST (toStr (query_url req))
          = ServerJs.Failed reason
        /\ In reason ["Bad URL"; "No host"; "Private/invalid host";
                      "Host not in allowlist"]
        /\ ServerJs.proxyHandler parseURL ALLOWLIST DEFAULT_TARGET req
           = Respond 400 (Json [("error", "Target rejected");
                                ("reason", reason)]))
  \/ (truthy (query_url req) = false
      /\ ServerJs.proxyHandler parseURL ALLOWLIST DEFAULT_TARGET req
         = Forward DEFAULT_TARGET (path req))
  \/ (exists u,
        parseURL (toStr (query_url req)) = Some u
        /\ ServerJs.allowedTarget parseURL ALLOWLIST (toStr (query_url req))
           = ServerJs.Ok (ServerJs.href u)
        /\ ServerJs.proxyHandler parseURL ALLOWLIST DEFAULT_TARGET req
           = Forward (toStr (query_url req))
               (ServerJs.pathname u +:+ ServerJs.query u)).
Proof.
  destruct (JS.arrayIncludes ServerJs.allowedMethods (method req)) eqn:Hm.
  - right. destruct (truthy (query_url req)) eqn:Hq.
    + destruct (ServerJs.allowedTarget parseURL ALLOWLIST
                  (toStr (query_url req))) as [reason|url] eqn:Hc.
      * left. exists reason. split; [done|].
        split; [by apply (allowedTarget_reasons parseURL ALLOWLIST _ _ Hc)|].
        unfold ServerJs.proxyHandler. by rewrite Hm, Hq, Hc.
      * right. right.
        pose proof Hc as Hok.
        apply allowedTarget_ok_iff in Hok as (u & Hp & -> & _).
        exists u. split; [done|]. split; [done|].
        unfold ServerJs.proxyHandler, ServerJs.proxyMiddleware,
          ServerJs.router, ServerJs.pathRewrite.
        by rewrite Hm, Hq, Hc, Hp, query_or_empty.
    + right. left. split; [done|].
      apply arrayIncludes_In in Hm. by apply handler_default_target.
  - left. assert (~ In (method req) ServerJs.allowedMethods) as Hnot.
    { intros Hin. apply arrayIncludes_In in Hin. congruence. }
    split; [done|]. by apply handler_method_not_allowed.
Qed.

(** X15.  The hostname src/server.js matches against the allowlist is the
    host up to its first colon: it never contains a colon, it is the whole
    host when the host has no colon, and a port, with everything after
    it, is dropped. *)
Theorem X15_hostname_without_port (host h rest : string) :
  JS.includes (JS.splitHead ":" host) ":" = false
  /\ (JS.includes h ":" = false ->
      JS.splitHead ":" h = h
      /\ JS.splitHead ":" (h +:+ ":" +:+ rest) = h).
Proof.
  split; [apply splitHead_no_sep|].
  intros Hh. split; [by apply splitHead_whole|by apply splitHead_app].
Qed.

Lemma X15_hostname_without_port_witness :
  JS.splitHead ":" "example.com" = "example.com"
  /\ JS.splitHead ":" "example.com:8443" = "example.com".
Proof.
  apply (proj2 (X15_hostname_without_port "" "example.com" "8443")).
  reflexivity.
Defined.

(* ===================================================================== *)
(** ** The host check of src/server.js *)
(* ===================================================================== *)

Section HostCheckFacts.

Import RegExp.

Lemma allChars_app (p : ascii -> bool) (u v : string) :
  allChars p (u +:+ v) = allChars p u && allChars p v.
Proof.
  induction u as [|c u IH]; [done|].
  change (String c u +:+ v) with (String c (u +:+ v)).
  cbn [allChars]. by rewrite IH, andb_assoc.
Qed.

Lemma allChars_impl (p q : ascii -> bool) (s : string) :
  (forall c, p c = true -> q c = true) ->
  allChars p s = true -> allChars q s = true.
Proof.
  intros Hpq. induction s as [|c s IH]; [done|].
  cbn [allChars]. intros H. apply andb_prop in H as [Hc Hs].
  by rewrite (Hpq c Hc), (IH Hs).
Qed.

Lemma allChars_lower (p : ascii -> bool) (s : string) :
  allChars p (JS.toLowerCase s) = allChars (fun c => p (JS.lowerChar c)) s.
Proof.
  induction s as [|c s IH]; [done|].
  cbn [JS.toLowerCase allChars]. by rewrite IH.
Qed.

Lemma allChars_includes (p : ascii -> bool) (c : ascii) (s : string) :
  allChars p s = true -> JS.includes s (String c "") = true -> p c = true.
Proof.
  induction s as [|a s IH]; [done|].
  cbn [allChars]. rewrite includes_char.
  intros Hall Hin. apply andb_prop in Hall as [Ha Hs].
  apply orb_prop in Hin as [Hin|Hin]; [|auto].
  by apply Ascii.eqb_eq in Hin as ->.
Qed.

(** A string in the language of a pattern is made of characters that some
    class of the pattern accepts. *)
Lemma lang_alphabet (r : regex) (s : string) :
  lang r s -> allChars (alphabet r) s = true.
Proof.
  induction 1 as [|p c Hp|r s u v Hr IHr Hs IHs|r s u Hr IHr|r s u Hs IHs
                  |r|r u v Hr IHr Hs IHs].
  - done.
  - cbn. by rewrite Hp.
  - rewrite allChars_app. apply andb_true_intro. split.
    + apply (allChars_impl (alphabet r)); [|done].
      intros c Hc. cbn. by rewrite Hc.
    + apply (allChars_impl (alphabet s)); [|done].
      intros c Hc. cbn. rewrite Hc. apply orb_true_r.
  - apply (allChars_impl (alphabet r)); [|done].
    intros c Hc. cbn. by rewrite Hc.
  - apply (allChars_impl (alphabet s)); [|done].
    intros c Hc. cbn. rewrite Hc. apply orb_true_r.
  - done.
  - rewrite allChars_app, IHs, andb_true_r.
    apply (allChars_impl (alphabet r)); [|done]. by intros c Hc.
Qed.

Lemma matches_alphabet (r : regex) (s : string) :
  matches r s = true -> allChars (alphabet r) s = true.
Proof. intros H. by apply lang_alphabet, matches_lang. Qed.

Lemma includes_char_toLowerCase (c : ascii) (s : string) :
  (forall a, Ascii.eqb c (JS.lowerChar a) = Ascii.eqb c a) ->
  JS.includes (JS.toLowerCase s) (String c "") = JS.includes s (String c "").
Proof.
  intros Hc. induction s as [|a s IH]; [done|].
  cbn [JS.toLowerCase]. by rewrite !includes_char, IH, Hc.
Qed.

Lemma ipv4_alphabet_literal (c : ascii) :
  alphabet ServerJs.ipv4 (JS.lowerChar c) = true -> literalChar c = true.
Proof. by destruct c as [[] [] [] [] [] [] [] []]. Qed.

Lemma hex_alphabet_literal (c : ascii) :
  alphabet ServerJs.hexOrColon (JS.lowerChar c) = true -> literalChar c = true.
Proof. by destruct c as [[] [] [] [] [] [] [] []]. Qed.

Lemma ipv4_alphabet_fixed (c : ascii) :
  alphabet ServerJs.ipv4 c = true -> JS.lowerChar c = c.
Proof. by destruct c as [[] [] [] [] [] [] [] []]. Qed.

Lemma toLowerCase_fixed (p : ascii -> bool) (s : string) :
  (forall c, p c = true -> JS.lowerChar c = c) ->
  allChars p s = true -> JS.toLowerCase s = s.
Proof.
  intros Hp. induction s as [|c s IH]; [done|].
  cbn [allChars JS.toLowerCase]. intros H. apply andb_prop in H as [Hc Hs].
  by rewrite (Hp c Hc), (IH Hs).
Qed.

Lemma isPrivateHost_true (h : string) :
  ServerJs.isPrivateHost h = true ->
  h = ""
  \/ matches ServerJs.ipv4 (JS.toLowerCase h) = true
  \/ matches ServerJs.hexOrColon (JS.toLowerCase h) = true.
Proof.
  unfold ServerJs.isPrivateHost.
  destruct (JS.truthy h) eqn:Ht; cbn.
  - destruct (matches ServerJs.ipv4 _); [auto|].
    destruct (matches ServerJs.hexOrColon _); [auto|done].
  - apply truthy_false in Ht. auto.
Qed.

(** The pattern [/^172\.(1[6-9]|2[0-9]|3[0-1])\./], without its anchor. *)
Lemma ascii_is (c a : ascii) :
  nat_of_ascii a = nat_of_ascii c -> a = c.
Proof.
  intros H. rewrite <- (ascii_nat_embedding a), <- (ascii_nat_embedding c).
  by rewrite H.
Qed.

Lemma second_octet (w : string) :
  lang (Alt (Cat (chr "1") (range "6" "9"))
          (Alt (Cat (chr "2") (range "0" "9"))
               (Cat (chr "3") (range "0" "1")))) w
  <-> exists a b, w = String a (String b "") /\ from16to31 a b = true.
Proof.
  assert (forall (lo hi : ascii) (v : string),
            lang (range lo hi) v <->
            exists b, v = String b ""
              /\ nat_of_ascii lo <= nat_of_ascii b <= nat_of_ascii hi)
    as Hrange.
  { intros lo hi v. unfold range. rewrite lang_class_inv.
    split; intros (b & -> & Hb); exists b; (split; [done|]).
    - apply andb_prop in Hb as [H1 H2]. by apply Nat.leb_le in H1, H2.
    - by rewrite andb_true_iff, !Nat.leb_le. }
  assert (forall a, nat_of_ascii a = 49 -> a = "1"%char) as H49
    by (intros a Ha; by apply ascii_is).
  assert (forall a, nat_of_ascii a = 50 -> a = "2"%char) as H50
    by (intros a Ha; by apply ascii_is).
  assert (forall a, nat_of_ascii a = 51 -> a = "3"%char) as H51
    by (intros a Ha; by apply ascii_is).
  rewrite !lang_alt_inv, !lang_cat_inv. unfold from16to31, JS.isDigit.
  split.
  - intros [H|[H|H]]; destruct H as (u & v & -> & Hu & Hv);
      apply lang_chr_inv in Hu as ->;
      apply Hrange in Hv as (b & -> & Hb);
      eexists _, b; (split; [reflexivity|]);
      change (nat_of_ascii "0") with 48 in *;
      change (nat_of_ascii "1") with 49 in *;
      change (nat_of_ascii "2") with 50 in *;
      change (nat_of_ascii "3") with 51 in *;
      change (nat_of_ascii "6") with 54 in *;
      change (nat_of_ascii "9") with 57 in *;
      rewrite !andb_true_iff, !Nat.leb_le; lia.
  - intros (a & b & -> & H).
    rewrite !andb_true_iff, !Nat.leb_le in H.
    destruct H as [[[[Ha1 Ha2] [Hb1 Hb2]] Hlo] Hhi].
    assert (nat_of_ascii a = 49 \/ nat_of_ascii a = 50 \/ nat_of_ascii a = 51)
      as [Ha|[Ha|Ha]] by lia.
    + left. exists (String a ""), (String b ""). split; [done|]. split.
      * apply lang_chr_inv. f_equal. by apply H49.
      * apply Hrange. exists b. split; [done|].
        change (nat_of_ascii "0") with 48; change (nat_of_ascii "1") with 49;
        change (nat_of_ascii "6") with 54; change (nat_of_ascii "9") with 57.
        lia.
    + right. left. exists (String a ""), (String b ""). split; [done|]. split.
      * apply lang_chr_inv. f_equal. by apply H50.
      * apply Hrange. exists b. split; [done|].
        change (nat_of_ascii "0") with 48; change (nat_of_ascii "1") with 49;
        change (nat_of_ascii "6") with 54; change (nat_of_ascii "9") with 57.
        lia.
    + right. right. exists (String a ""), (String b ""). split; [done|]. split.
      * apply lang_chr_inv. f_equal. by apply H51.
      * apply Hrange. exists b. split; [done|].
        change (nat_of_ascii "0") with 48; change (nat_of_ascii "1") with 49;
        change (nat_of_ascii "6") with 54; change (nat_of_ascii "9") with 57.
        lia.
Qed.

Lemma testPrefix_172 (h : string) :
  testPrefix
    (Cat (lit "172.")
       (Cat (Alt (Cat (chr "1") (range "6" "9"))
               (Alt (Cat (chr "2") (range "0" "9"))
                    (Cat (chr "3") (range "0" "1"))))
          (chr "."))) h = true
  <-> exists a b,
        JS.startsWith h ("172." +:+ String a (String b ".")) = true
        /\ from16to31 a b = true.
Proof.
  rewrite testPrefix_spec. split.
  - intros (u & v & -> & Hu).
    apply lang_cat_inv in Hu as (u1 & u2 & -> & ->%lang_lit_inv & Hu2).
    apply lang_cat_inv in Hu2 as (w & d & -> & Hw & ->%lang_chr_inv).
    apply second_octet in Hw as (a & b & -> & Hab).
    exists a, b. split; [|done]. apply startsWith_spec. by exists v.
  - intros (a & b & Hs & Hab). apply startsWith_spec in Hs as (v & ->).
    exists ("172." +:+ String a (String b ".")), v. split; [done|].
    apply lang_cat; [by apply lang_lit_inv|].
    apply (lang_cat _ _ (String a (String b "")) ".");
      [|by apply lang_chr_inv].
    apply second_octet. by exists a, b.
Qed.

Lemma ranges_of_dotted_quad (h : string) :
  allChars (alphabet ServerJs.ipv4) h = true ->
  existsb (fun rx => rx h) ServerJs.PRIVATE_NET_RANGES = true
  <-> privateRange h.
Proof.
  intros Hall. unfold ServerJs.PRIVATE_NET_RANGES, privateRange.
  cbn [existsb]. rewrite !testPrefix_lit.
  assert (matches (lit "::1") h = false) as ->.
  { apply not_true_is_false. intros H.
    apply matches_lang, lang_lit_inv in H as ->. done. }
  assert (JS.startsWith h "fc00:" = false) as ->.
  { apply not_true_is_false. intros H.
    apply startsWith_spec in H as (t & ->). done. }
  assert (JS.startsWith h "fe80:" = false) as ->.
  { apply not_true_is_false. intros H.
    apply startsWith_spec in H as (t & ->). done. }
  rewrite !orb_false_r, !orb_true_iff, testPrefix_172.
  tauto.
Qed.

Lemma hexOrColonChar_lowerChar (c : ascii) :
  hexOrColonChar c = true -> hexOrColonChar (JS.lowerChar c) = true.
Proof. by destruct c as [[] [] [] [] [] [] [] []]. Qed.

(** The class of [/^[a-f0-9:]+$/i], as the pattern is written here. *)
Lemma hexOrColonChar_class (c : ascii) :
  hexOrColonChar c = true ->
  (let l := JS.lowerChar c in
   (Nat.leb 97 (nat_of_ascii l) && Nat.leb (nat_of_ascii l) 102)
   || JS.isDigit l || Ascii.eqb l ":") = true.
Proof. by destruct c as [[] [] [] [] [] [] [] []]. Qed.

(** A non-empty string of characters of a class is in the language of the
    class repeated once or more. *)
Lemma lang_star_class (p : ascii -> bool) (s : string) :
  allChars p s = true -> lang (Star (Class p)) s.
Proof.
  induction s as [|c s IH]; [intros _; apply lang_star_nil|].
  cbn [allChars]. intros H. apply andb_prop in H as [Hc Hs].
  change (String c s) with (String c "" +:+ s).
  apply lang_star_cons; [by apply lang_class|auto].
Qed.

Lemma lang_plus_class (p : ascii -> bool) (s : string) :
  s <> "" -> allChars p s = true -> lang (plus (Class p)) s.
Proof.
  destruct s as [|c s]; [done|]. intros _.
  cbn [allChars]. intros H. apply andb_prop in H as [Hc Hs].
  change (String c s) with (String c "" +:+ s).
  apply lang_cat; [by apply lang_class|by apply lang_star_class].
Qed.

End HostCheckFacts.

(** X16.  [isPrivateHost] of src/server.js never blocks a host that
    contains a character other than a digit, a letter a to f in either
    case, a dot or a colon: a name such as [localhost] or [example.com]
    passes the host check and is left to the allowlist.  It always blocks a
    non-empty host written with nothing but digits, the letters a to f and
    colons, so a name such as [cafe] or [db] never reaches the
    allowlist. *)
Theorem X16_named_hosts_pass (h : string) :
  (allChars literalChar h = false -> ServerJs.isPrivateHost h = false)
  /\ (h <> "" -> allChars hexOrColonChar h = true ->
      ServerJs.isPrivateHost h = true).
Proof.
  split.
  - intros Hh. apply not_true_is_false. intros Hpriv.
    apply isPrivateHost_true in Hpriv as [->|[Hm|Hm]]; [done| |];
      apply matches_alphabet in Hm; rewrite allChars_lower in Hm.
    + apply (allChars_impl _ literalChar) in Hm; [congruence|].
      apply ipv4_alphabet_literal.
    + apply (allChars_impl _ literalChar) in Hm; [congruence|].
      apply hex_alphabet_literal.
  - intros Hne Hall. unfold ServerJs.isPrivateHost.
    pose proof Hne as Ht. apply truthy_true in Ht. rewrite Ht. cbn [negb].
    assert (allChars hexOrColonChar (JS.toLowerCase h) = true) as Hlow.
    { rewrite allChars_lower.
      apply (allChars_impl hexOrColonChar); [|done].
      apply hexOrColonChar_lowerChar. }
    destruct (RegExp.matches ServerJs.ipv4 (JS.toLowerCase h)) eqn:Hip.
    + apply serverjs_ipv4_dottedQuad in Hip as (a & b & c & d & Heq & _).
      rewrite Heq, !allChars_app in Hlow.
      apply andb_prop in Hlow as [_ Hlow].
      by apply andb_prop in Hlow as [Hdot _].
    + assert (RegExp.matches ServerJs.hexOrColon (JS.toLowerCase h) = true)
        as ->; [|done].
      apply matches_lang, lang_plus_class.
      * intros Hempty. by apply (proj1 (toLowerCase_empty h)) in Hempty.
      * apply (allChars_impl hexOrColonChar); [|done].
        apply hexOrColonChar_class.
Qed.

Lemma X16_named_hosts_pass_witness :
  ServerJs.isPrivateHost "localhost" = false
  /\ ServerJs.allowedTarget MoreSamples.urlparse ["localhost"]
       "http://localhost:3000/"
     = ServerJs.Ok "http://localhost:3000/"
  /\ ServerJs.isPrivateHost "cafe" = true.
Proof.
  split; [|split; [reflexivity|]].
  - apply (proj1 (X16_named_hosts_pass "localhost")). reflexivity.
  - apply (proj2 (X16_named_hosts_pass "cafe")); [discriminate|reflexivity].
Defined.

(** X17.  [isPrivateHost] is applied to the host with its port, and a host
    that contains both a dot and a colon is never blocked: a dotted-decimal
    address followed by a port, private or not, passes the host check. *)
Theorem X17_address_with_port_passes (h : string) :
  JS.includes h "." = true -> JS.includes h ":" = true ->
  ServerJs.isPrivateHost h = false.
Proof.
  intros Hdot Hcolon. apply not_true_is_false. intros Hpriv.
  apply isPrivateHost_true in Hpriv as [->|[Hm|Hm]]; [done| |];
    apply matches_alphabet in Hm.
  - rewrite <- includes_colon_toLowerCase in Hcolon.
    by pose proof (allChars_includes _ _ _ Hm Hcolon).
  - rewrite <- (includes_char_toLowerCase ".") in Hdot
      by apply eqb_dot_lowerChar.
    by pose proof (allChars_includes _ _ _ Hm Hdot).
Qed.

Lemma X17_address_with_port_passes_witness :
  ServerJs.isPrivateHost "10.0.0.5:8080" = false
  /\ ServerJs.allowedTarget MoreSamples.urlparse ["10.0.0.5"]
       "http://10.0.0.5:8080/admin"
     = ServerJs.Ok "http://10.0.0.5:8080/admin"
  /\ ServerJs.allowedTarget MoreSamples.urlparse ["10.0.0.5"]
       "http://10.0.0.5/admin"
     = ServerJs.Failed "Private/invalid host".
Proof.
  split; [|split; reflexivity].
  apply (X17_address_with_port_passes "10.0.0.5:8080"); reflexivity.
Defined.

(** X18.  For a host of dotted-decimal shape, [isPrivateHost] blocks
    exactly the hosts that start with [10.], [127.], [169.254.],
    [192.168.], or [172.] followed by a two-digit number from 16 to 31 and
    a dot; every other dotted-decimal host passes, and the three IPv6
    patterns of [PRIVATE_NET_RANGES] never decide anything. *)
Theorem X18_private_ranges (h : string) :
  RegExp.matches ServerJs.ipv4 h = true ->
  ServerJs.isPrivateHost h = true <-> privateRange h.
Proof.
  intros Hm. pose proof (matches_alphabet _ _ Hm) as Hall.
  rewrite <- (ranges_of_dotted_quad h Hall).
  unfold ServerJs.isPrivateHost.
  rewrite (toLowerCase_fixed _ h ipv4_alphabet_fixed Hall), Hm.
  by destruct h.
Qed.

Lemma X18_private_ranges_witness :
  ServerJs.isPrivateHost "172.20.10.1" = true.
Proof.
  apply (X18_private_ranges "172.20.10.1"); [reflexivity|].
  right. right. right. right. exists "2"%char, "0"%char.
  split; reflexivity.
Defined.

(* ===================================================================== *)
(** ** The CORS callback of part_000 and the request hooks *)
(* ===================================================================== *)

Lemma loadCorsOrigins_In (env : option string) (o : string) :
  In o (Startup.loadCorsOrigins env) <->
  o <> "" /\ exists w, In w (Startup.split "," (default "" env))
                       /\ Startup.trim w = o.
Proof.
  unfold Startup.loadCorsOrigins. rewrite filter_In, in_map_iff, truthy_true.
  split.
  - intros [(w & <- & Hw) Hne]. split; [done|]. by exists w.
  - intros [Hne (w & Hw & <-)]. split; [|done]. by exists w.
Qed.

(** X19.  For an ASCII value of [CORS_ORIGINS], part_000 hands the CORS
    package its own origin callback exactly when some piece of the value,
    cut at the commas, is more than white space; with no such piece (the
    variable unset, empty or blank) no callback is installed and the
    package is left to its defaults.  When the callback is installed, it
    allows a request without an [Origin] header or with an empty one, and
    allows any other origin exactly when it equals, letter case included,
    one of the pieces with its surrounding white space removed; otherwise it
    fails with "Origin not allowed by CORS". *)
Theorem X19_cors_origin (env : option string) (o : string) :
  asciiOnly (default "" env) = true ->
  (Part000Cors.options (Startup.loadCorsOrigins env) = None
   <-> forall w, In w (Startup.split "," (default "" env)) ->
                 Startup.trim w = "")
  /\ (forall callback : option string -> Part000Cors.Decision,
        Part000Cors.options (Startup.loadCorsOrigins env) = Some callback ->
        callback None = Part000Cors.Allow
        /\ callback (Some "") = Part000Cors.Allow
        /\ (o <> "" ->
            (callback (Some o) = Part000Cors.Allow
             <-> exists w, In w (Startup.split "," (default "" env))
                           /\ Startup.trim w = o)
            /\ (callback (Some o) <> Part000Cors.Allow ->
                callback (Some o)
                = Part000Cors.Deny "Origin not allowed by CORS"))).
Proof.
  intros _. unfold Part000Cors.options. split.
  - destruct (Startup.loadCorsOrigins env) as [|d l] eqn:Hload; cbn.
    + split; [intros _|done]. intros w Hw.
      destruct (Startup.trim w) as [|c t] eqn:Ht; [done|].
      assert (In (Startup.trim w) (Startup.loadCorsOrigins env)) as Hin.
      { apply loadCorsOrigins_In. split; [by rewrite Ht|]. by exists w. }
      by rewrite Hload, Ht in Hin.
    + split; [done|]. intros Hblank.
      assert (In d (Startup.loadCorsOrigins env)) as Hin
        by (rewrite Hload; by left).
      apply loadCorsOrigins_In in Hin as [Hne (w & Hw & <-)].
      by rewrite (Hblank w Hw) in Hne.
  - intros callback.
    destruct (Nat.ltb 0 (length (Startup.loadCorsOrigins env))); [|done].
    intros [= <-]. split; [done|]. split; [done|]. intros Hne.
    unfold Part000Cors.origin. apply truthy_true in Hne as Ht. rewrite Ht.
    cbn [negb orb].
    destruct (JS.arrayIncludes (Startup.loadCorsOrigins env) o) eqn:Hin.
    + split; [|done]. split; [intros _|done].
      apply arrayIncludes_In, loadCorsOrigins_In in Hin. tauto.
    + split; [|done]. split; [done|]. intros Hw.
      assert (JS.arrayIncludes (Startup.loadCorsOrigins env) o = true) as Hyes.
      { apply arrayIncludes_In, loadCorsOrigins_In. by split. }
      congruence.
Qed.

Lemma X19_cors_origin_witness :
  Part000Cors.options (Startup.loadCorsOrigins (Some " , ")) = None
  /\ exists callback : option string -> Part000Cors.Decision,
       Part000Cors.options
         (Startup.loadCorsOrigins
            (Some "https://app.example.com , https://b.test"))
       = Some callback
       /\ callback (Some "https://app.example.com") = Part000Cors.Allow
       /\ callback (Some "https://APP.example.com")
          = Part000Cors.Deny "Origin not allowed by CORS".
Proof.
  split.
  - apply (proj1 (X19_cors_origin (Some " , ") "" eq_refl)).
    intros w [<-|[<-|[]]]; reflexivity.
  - eexists. split; [reflexivity|]. split.
    + apply (proj1 (proj2 (proj2 (proj2 (X19_cors_origin
               (Some "https://app.example.com , https://b.test")
               "https://app.example.com" eq_refl) _ eq_refl))
               ltac:(discriminate))).
      exists "https://app.example.com ". split; [simpl; tauto|reflexivity].
    + apply (proj2 (proj2 (proj2 (proj2 (X19_cors_origin
               (Some "https://app.example.com , https://b.test")
               "https://APP.example.com" eq_refl) _ eq_refl))
               ltac:(discriminate))).
      discriminate.
Defined.

(** X20.  The request hooks of the two programs are the same function: one
    sets the identifying header and then removes the hop-by-hop headers,
    the other removes first and sets after, and the resulting header stores
    are equal.  Running the hook twice gives what running it once gives. *)
Theorem X20_request_hooks_agree (h : OutHeaders) :
  Part000.onProxyReq h = ServerJs.onProxyReq h
  /\ Part000.onProxyReq (Part000.onProxyReq h) = Part000.onProxyReq h.
Proof.
  split.
  - apply map_eq. intros k.
    change (upstreamBoundHeaders Part000.hooks h !! k
            = upstreamBoundHeaders ServerJs.hooks h !! k).
    by rewrite part000_request_hook, serverjs_request_hook.
  - apply map_eq. intros k.
    change (upstreamBoundHeaders Part000.hooks
              (upstreamBoundHeaders Part000.hooks h) !! k
            = upstreamBoundHeaders Part000.hooks h !! k).
    rewrite !part000_request_hook. unfold afterRequestHook.
    destruct (decide (k ∈ hopByHop)); [done|].
    destruct (decide (k = "x-forwarded-by")); [done|].
    rewrite part000_request_hook. unfold afterRequestHook.
    by rewrite decide_False, decide_False.
Qed.

(** X21.  For an ASCII value of the environment variable, whatever case
    and surrounding white space a domain is written with in it, the loaded
    allowlist lets its lower-case, trimmed form through the allowlist test
    of part_000. *)
Theorem X21_configured_domains_allowlisted (env : option string) (w : string) :
  asciiOnly (default "" env) = true ->
  In w (Startup.split "," (default "" env)) ->
  Startup.trim w <> "" ->
  Part000.allowlisted (Startup.loadAllowlist env)
    (JS.toLowerCase (Startup.trim w)) = true.
Proof.
  intros _ Hw Hne. apply allowlisted_spec.
  exists (JS.toLowerCase (Startup.trim w)). split; [|by left].
  apply loadAllowlist_In. split; [|by exists w].
  by rewrite toLowerCase_empty.
Qed.

Lemma X21_configured_domains_allowlisted_witness :
  Part000.allowlisted (Startup.loadAllowlist (Some " Example.COM ,b.test"))
    "example.com" = true.
Proof.
  apply (X21_configured_domains_allowlisted
           (Some " Example.COM ,b.test") " Example.COM ").
  - reflexivity.
  - simpl. tauto.
  - discriminate.
Defined.
